(** * PDF question answering (RAG) pipeline: a shallow embedding

    The development follows the two variants of the repository:

    - [pdf_rag_app] (command line): [pdf_loader.py], [rag.py];
    - [pdf_rag] (Streamlit session): [utils/text_processing.py],
      [utils/config_loader.py], [ui/streamlit_app.py].

    Python code is embedded as functions in a state-and-exception monad.
    Calls that leave the repository (the text splitter, the PDF reader, the
    FAISS store, the retrieval chain, the components of [pdf_rag.core] and
    [pdf_rag.models]) are operations of an interface; every such call is
    recorded in a log, so that "this backend was not invoked" is a statement
    about the log. *)

From Stdlib Require Import ZArith List String Bool Lia.
From stdpp Require Import base option list strings gmap pretty.
Import ListNotations.

#[local] Set Warnings "-register-all".

Local Open Scope string_scope.
Local Open Scope Z_scope.
Local Open Scope list_scope.

(** ** Python values, exceptions and effects *)

Module Py.

(** The exception classes the two variants raise, catch or let through.
    The last three are not subclasses of [Exception], so an
    [except Exception] clause does not catch them: [KeyboardInterrupt], and
    the two control-flow exceptions behind Streamlit's [st.stop()] and
    [st.rerun()]. *)
Inductive exn_class : Type :=
| ValueError
| ConnectionError
| RequestsConnectionError
| FileNotFoundError
| KeyError
| TypeError
| AttributeError
| OtherError
| KeyboardInterrupt
| StopException
| RerunException.

Record exn : Type := Exn { exn_cls : exn_class; exn_str : string }.

Definition is_Exception (e : exn) : bool :=
  match exn_cls e with
  | KeyboardInterrupt | StopException | RerunException => false
  | _ => true
  end.

Inductive result (A : Type) : Type :=
| Ok (a : A)
| Raised (e : exn).
Arguments Ok {A} a.
Arguments Raised {A} e.

Definition is_ok {A} (r : result A) : bool :=
  match r with Ok _ => true | Raised _ => false end.

Definition result_map {A B} (f : A -> B) (r : result A) : result B :=
  match r with Ok a => Ok (f a) | Raised e => Raised e end.

(** A statement block over a world [W]: it returns or raises, and leaves a
    world behind in both cases (what was mutated before a [raise] stays
    mutated). *)
Definition prog (W A : Type) : Type := W -> result A * W.

Definition ret {W A} (a : A) : prog W A := fun w => (Ok a, w).

Definition raise {W A} (e : exn) : prog W A := fun w => (Raised e, w).

Definition bind {W A B} (m : prog W A) (k : A -> prog W B) : prog W B :=
  fun w =>
    match m w with
    | (Ok a, w') => k a w'
    | (Raised e, w') => (Raised e, w')
    end.

Definition modify {W} (f : W -> W) : prog W unit := fun w => (Ok tt, f w).

Definition gets {W A} (f : W -> A) : prog W A := fun w => (Ok (f w), w).

(** [try: body / except Exception as e: handler e]. *)
Definition try_except {W A} (body : prog W A) (handler : exn -> prog W A)
  : prog W A :=
  fun w =>
    match body w with
    | (Ok a, w') => (Ok a, w')
    | (Raised e, w') =>
        if is_Exception e then handler e w' else (Raised e, w')
    end.

(** Truthiness of the values the code tests with [if x] / [if not x]. *)
Definition truthy_list {A} (l : list A) : bool :=
  match l with [] => false | _ :: _ => true end.

Definition truthy_str (s : string) : bool :=
  match s with EmptyString => false | String _ _ => true end.

Definition truthy_opt {A} (o : option A) : bool :=
  match o with None => false | Some _ => true end.

End Py.

Import Py.

Declare Scope prog_scope.
Delimit Scope prog_scope with prog.
Notation "'let*' x ':=' m 'in' k" := (bind m (fun x => k))
  (at level 10, x name, m at level 100, k at level 200) : prog_scope.
Notation "m ';;' k" := (bind m (fun _ => k))
  (at level 100, k at level 200, right associativity) : prog_scope.
Local Open Scope prog_scope.

(** ** The text splitter of langchain

    [RecursiveCharacterTextSplitter] is imported by both variants
    ([langchain_text_splitters] in [pdf_loader.py], [langchain.text_splitter]
    in [text_processing.py]).  Its constructor and its two splitting methods
    are operations of an interface: what they compute is the library's
    business, that they are called and how their outcome is passed on is the
    repository's. *)

Module LangChain.

(** A langchain [Document]: page text and a metadata mapping. *)
Record Document : Type := Doc {
  page_content : string;
  metadata : gmap string string
}.

Class TextSplitter : Type := {
  splitter : Type;
  (** [RecursiveCharacterTextSplitter(chunk_size=, chunk_overlap=,
      separators=)]; [None] when [separators] is not passed. *)
  RecursiveCharacterTextSplitter :
    Z -> Z -> option (list string) -> result splitter;
  split_text_of : splitter -> string -> result (list string);
  split_documents_of : splitter -> list Document -> result (list Document)
}.

End LangChain.

Import LangChain.

(** ** The command-line variant: [pdf_rag_app] *)

Module PdfRagApp.

(** [OllamaEmbeddings(base_url=..., model=...)] and
    [Ollama(base_url=..., model=..., temperature=0.7)]: handles that only
    carry their configuration. *)
Record OllamaEmbeddings : Type := Embeddings {
  emb_base_url : string;
  emb_model : string
}.

Record Ollama : Type := Llm {
  llm_base_url : string;
  llm_model_name : string
}.

(** What [qa_chain({"query": q})] gives back: the ["result"] entry and the
    optional ["source_documents"] entry. *)
Record ChainOutput : Type := ChainOut {
  out_result : string;
  out_source_documents : option (list Document)
}.

(** The other libraries the variant calls into.  [disk] is the file system
    they read and write, [vstore] a FAISS store. *)
Class Libraries : Type := {
  disk : Type;
  vstore : Type;
  (** [PyPDFLoader(path).load()] *)
  PyPDFLoader_load : disk -> string -> result (list Document);
  (** [Path.exists] / [os.path.exists], [Path.glob("*.pdf")], [Path.name] *)
  path_exists : disk -> string -> bool;
  glob_pdf : disk -> string -> list string;
  path_name : string -> string;
  (** [FAISS.load_local], [FAISS.from_documents], [store.save_local] *)
  FAISS_load_local : disk -> string -> OllamaEmbeddings -> result vstore;
  FAISS_from_documents :
    list Document -> OllamaEmbeddings -> result vstore;
  FAISS_save_local : vstore -> string -> disk -> result disk;
  (** [store.similarity_search(q, k=k)] *)
  similarity_search : vstore -> string -> Z -> result (list Document);
  (** the chain built by [RetrievalQA.from_chain_type] over a store *)
  chain_call : Ollama -> vstore -> Z -> string -> result ChainOutput;
  (** [requests.get(url, timeout=5).status_code] *)
  http_get_status : string -> result Z
}.

(** Calls that leave the repository. *)
Inductive call : Type :=
| CallSplitterInit (size overlap : Z)
| CallPdfLoad (path : string)
| CallSplitDocuments (n : nat)
| CallHttpGet (url : string)
| CallLoadLocal (path : string) (model : string)
| CallFromDocuments (docs : list Document) (model : string)
| CallSaveLocal (path : string)
| CallSimilaritySearch (question : string) (k : Z)
| CallChain (question : string).

Section WithLibraries.
Context `{Splitting : TextSplitter} `{Libs : Libraries}.

Record world : Type := World {
  w_disk : disk;
  w_stdout : list string;
  w_calls : list call
}.

Definition print (line : string) : prog world unit :=
  modify (fun w => World (w_disk w) (w_stdout w ++ [line]) (w_calls w)).

(** A library call that does not touch the disk. *)
Definition lib {A} (c : call) (r : result A) : prog world A :=
  fun w => (r, World (w_disk w) (w_stdout w) (w_calls w ++ [c])).

(** A library call that reads the disk. *)
Definition lib_read {A} (c : call) (f : disk -> result A) : prog world A :=
  fun w => (f (w_disk w), World (w_disk w) (w_stdout w) (w_calls w ++ [c])).

(** A library call that writes the disk. *)
Definition lib_write (c : call) (f : disk -> result disk)
  : prog world unit :=
  fun w =>
    match f (w_disk w) with
    | Ok d => (Ok tt, World d (w_stdout w) (w_calls w ++ [c]))
    | Raised e =>
        (Raised e, World (w_disk w) (w_stdout w) (w_calls w ++ [c]))
    end.

(** *** [pdf_loader.py]: class [PDFLoader] *)

Record PDFLoader : Type := MkPDFLoader {
  chunk_size : Z;
  chunk_overlap : Z;
  text_splitter : splitter
}.

(** [PDFLoader.__init__] *)
Definition PDFLoader_init (chunk_size chunk_overlap : Z)
  : prog world PDFLoader :=
  let* sp := lib (CallSplitterInit chunk_size chunk_overlap)
                 (RecursiveCharacterTextSplitter
                    chunk_size chunk_overlap None) in
  ret (MkPDFLoader chunk_size chunk_overlap sp).

(** [PDFLoader.load_pdf] *)
Definition load_pdf (self : PDFLoader) (file_path : string)
  : prog world (list Document) :=
  try_except
    (let* documents :=
       lib_read (CallPdfLoad file_path)
                (fun d => PyPDFLoader_load d file_path) in
     let* chunks :=
       lib (CallSplitDocuments (length documents))
           (split_documents_of (text_splitter self) documents) in
     ret chunks)
    (fun e =>
       print ("Error loading PDF " +:+ file_path +:+ ": " +:+ exn_str e);;
       ret []).

(** The [for pdf_file in pdf_files] loop of [load_pdfs_from_directory]. *)
Fixpoint load_each (self : PDFLoader) (pdf_files : list string)
    (all_chunks : list Document) : prog world (list Document) :=
  match pdf_files with
  | [] => ret all_chunks
  | pdf_file :: rest =>
      print ("Loading: " +:+ path_name pdf_file);;
      let* chunks := load_pdf self pdf_file in
      load_each self rest (all_chunks ++ chunks)
  end.

(** [PDFLoader.load_pdfs_from_directory] *)
Definition load_pdfs_from_directory (self : PDFLoader)
    (directory_path : string) : prog world (list Document) :=
  let* present := gets (fun w => path_exists (w_disk w) directory_path) in
  if negb present then
    print ("Directory " +:+ directory_path +:+ " does not exist");;
    ret []
  else
    let* pdf_files := gets (fun w => glob_pdf (w_disk w) directory_path) in
    print ("Found " +:+ pretty (length pdf_files) +:+ " PDF files");;
    let* all_chunks := load_each self pdf_files [] in
    print ("Total chunks created: " +:+ pretty (length all_chunks));;
    ret all_chunks.

(** *** [rag.py]: class [RAGSystem] *)

(** The chain of [setup_qa_chain]: the model, the store behind the
    retriever and its [search_kwargs] ([k] = 3).  Building the chain only
    records these parts; the chain is run by [chain_call]. *)
Record QAChain : Type := MkChain {
  qa_llm : Ollama;
  qa_store : vstore;
  qa_k : Z
}.

Record RAGSystem : Type := MkRAG {
  ollama_base_url : string;
  embedding_model : string;
  llm_model : string;
  embeddings : OllamaEmbeddings;
  llm : Ollama;
  vector_store : option vstore;
  qa_chain : option QAChain
}.

Definition set_vector_store (v : option vstore) (r : RAGSystem) : RAGSystem :=
  MkRAG (ollama_base_url r) (embedding_model r) (llm_model r)
        (embeddings r) (llm r) v (qa_chain r).

Definition set_qa_chain (c : option QAChain) (r : RAGSystem) : RAGSystem :=
  MkRAG (ollama_base_url r) (embedding_model r) (llm_model r)
        (embeddings r) (llm r) (vector_store r) c.

(** A running program: the outside world and the one [RAGSystem] object
    whose attributes the methods assign. *)
Record cli : Type := Cli {
  cli_world : world;
  cli_self : RAGSystem
}.

Definition in_world {A} (m : prog world A) : prog cli A :=
  fun s => let '(r, w) := m (cli_world s) in (r, Cli w (cli_self s)).

Definition self_get {A} (f : RAGSystem -> A) : prog cli A :=
  gets (fun s => f (cli_self s)).

Definition self_set (f : RAGSystem -> RAGSystem) : prog cli unit :=
  modify (fun s => Cli (cli_world s) (f (cli_self s))).

(** [RAGSystem._check_ollama_connection] *)
Definition check_ollama_connection (base_url : string) : prog world unit :=
  try_except
    (let* status :=
       lib (CallHttpGet (base_url +:+ "/api/tags"))
           (http_get_status (base_url +:+ "/api/tags")) in
     if status =? 200 then
       print ("✓ Connected to Ollama at " +:+ base_url)
     else
       raise (Exn ConnectionError
                  ("Ollama returned status code " +:+ pretty status)))
    (fun e =>
       match exn_cls e with
       | RequestsConnectionError =>
           raise (Exn ConnectionError
                      ("Cannot connect to Ollama at " +:+ base_url +:+ ". "
                       +:+ "Make sure Ollama is running: ollama serve"))
       | _ =>
           raise (Exn ConnectionError
                      ("Error connecting to Ollama: " +:+ exn_str e))
       end).

(** [RAGSystem.__init__] *)
Definition RAGSystem_init (base_url emb_name llm_name : string)
  : prog world RAGSystem :=
  check_ollama_connection base_url;;
  ret (MkRAG base_url emb_name llm_name
             (Embeddings base_url emb_name) (Llm base_url llm_name)
             None None).

(** [RAGSystem.build_vector_store] *)
Definition build_vector_store (documents : list Document)
    (vector_store_path : option string) : prog cli unit :=
  in_world (print "Building vector store from documents...");;
  let* emb := self_get embeddings in
  let* on_disk :=
    match vector_store_path with
    | Some p =>
        if truthy_str p
        then gets (fun s => path_exists (w_disk (cli_world s)) p)
        else ret false
    | None => ret false
    end in
  match vector_store_path, on_disk with
  | Some p, true =>
      in_world (print ("Loading existing vector store from " +:+ p));;
      let* store :=
        in_world (lib_read (CallLoadLocal p (emb_model emb))
                           (fun d => FAISS_load_local d p emb)) in
      self_set (set_vector_store (Some store))
  | _, _ =>
      (if negb (truthy_list documents)
       then raise (Exn ValueError "No documents provided to build vector store")
       else ret tt);;
      in_world (print ("Creating embeddings for "
                       +:+ pretty (length documents)
                       +:+ " document chunks..."));;
      in_world (print "This may take a while on first run...");;
      let* store :=
        in_world (lib (CallFromDocuments documents (emb_model emb))
                      (FAISS_from_documents documents emb)) in
      self_set (set_vector_store (Some store));;
      match vector_store_path with
      | Some p =>
          if truthy_str p then
            in_world (print ("Saving vector store to " +:+ p));;
            in_world (lib_write (CallSaveLocal p) (FAISS_save_local store p))
          else ret tt
      | None => ret tt
      end
  end.

(** [RAGSystem.setup_qa_chain] *)
Definition setup_qa_chain : prog cli unit :=
  let* store := self_get vector_store in
  match store with
  | None =>
      raise (Exn ValueError
                 "Vector store not initialized. Call build_vector_store first.")
  | Some v =>
      let* model := self_get llm in
      self_set (set_qa_chain (Some (MkChain model v 3)))
  end.

(** The dictionary [answer_question] returns. *)
Record Answer : Type := MkAnswer {
  ans_question : string;
  ans_answer : string;
  ans_sources : list Document
}.

(** [RAGSystem.answer_question] *)
Definition answer_question (question : string) : prog cli Answer :=
  let* chain := self_get qa_chain in
  match chain with
  | None =>
      raise (Exn ValueError "QA chain not setup. Call setup_qa_chain first.")
  | Some c =>
      let* result :=
        in_world (lib (CallChain question)
                      (chain_call (qa_llm c) (qa_store c) (qa_k c) question)) in
      ret (MkAnswer question (out_result result)
                    (default [] (out_source_documents result)))
  end.

(** [RAGSystem.get_relevant_documents] *)
Definition get_relevant_documents (question : string) (k : Z)
  : prog cli (list Document) :=
  let* store := self_get vector_store in
  match store with
  | None => raise (Exn ValueError "Vector store not initialized")
  | Some v =>
      in_world (lib (CallSimilaritySearch question k)
                    (similarity_search v question k))
  end.

(** The methods a caller can invoke on a constructed [RAGSystem]. *)
Inductive method : Type :=
| BuildVectorStore (documents : list Document) (path : option string)
| SetupQaChain
| AnswerQuestion (question : string)
| GetRelevantDocuments (question : string) (k : Z).

(** One method call: whether it returned, and the state it leaves. *)
Definition invoke (m : method) (s : cli) : bool * cli :=
  match m with
  | BuildVectorStore docs path =>
      let '(r, s') := build_vector_store docs path s in (is_ok r, s')
  | SetupQaChain =>
      let '(r, s') := setup_qa_chain s in (is_ok r, s')
  | AnswerQuestion q =>
      let '(r, s') := answer_question q s in (is_ok r, s')
  | GetRelevantDocuments q k =>
      let '(r, s') := get_relevant_documents q k s in (is_ok r, s')
  end.

(** The branch [build_vector_store] takes: the persisted index is used when a
    non-empty path is given and exists. *)
Definition uses_saved_index (path : option string) (s : cli) : bool :=
  match path with
  | Some p => truthy_str p && path_exists (w_disk (cli_world s)) p
  | None => false
  end.

(** Whether a call [build_vector_store documents path] from [s] obtains an
    index: [FAISS.load_local] returns on the branch that loads, the list is
    not empty and [FAISS.from_documents] returns on the branch that builds. *)
Definition obtains_index (documents : list Document) (path : option string)
    (s : cli) : bool :=
  match path with
  | Some p =>
      if uses_saved_index path s
      then is_ok (FAISS_load_local (w_disk (cli_world s)) p
                                   (embeddings (cli_self s)))
      else truthy_list documents
           && is_ok (FAISS_from_documents documents (embeddings (cli_self s)))
  | None =>
      truthy_list documents
      && is_ok (FAISS_from_documents documents (embeddings (cli_self s)))
  end.

(** A successful ingest: a [build_vector_store] call that obtains an index
    ([s] is the state before the call). *)
Definition is_load (m : method) (s : cli) : bool :=
  match m with
  | BuildVectorStore documents path => obtains_index documents path s
  | _ => false
  end.

(** States reached from [s0] by method calls none of which is a successful
    ingest. *)
Inductive reach_unloaded (s0 : cli) : cli -> Prop :=
| ru_init : reach_unloaded s0 s0
| ru_step s m :
    reach_unloaded s0 s ->
    is_load m s = false ->
    reach_unloaded s0 (snd (invoke m s)).

Definition printed (lines : list string) (w : world) : world :=
  World (w_disk w) (w_stdout w ++ lines) (w_calls w).

Definition called (c : call) (w : world) : world :=
  World (w_disk w) (w_stdout w) (w_calls w ++ [c]).

(** A system in which nothing has been built: no store and no chain. *)
Definition unloaded (s : cli) : Prop :=
  vector_store (cli_self s) = None /\ qa_chain (cli_self s) = None.

End WithLibraries.

End PdfRagApp.

(** ** The Streamlit variant: [pdf_rag] *)

Module PdfRag.

(** *** Configuration values

    What [yaml.safe_load] produces: scalars, sequences and mappings.  A
    float is kept as the text that denotes it. *)
Inductive yaml : Type :=
| YNone
| YBool (b : bool)
| YInt (z : Z)
| YFloat (repr : string)
| YStr (s : string)
| YList (items : list yaml)
| YDict (entries : gmap string yaml).

(** [config[key]] *)
Definition getitem (config : yaml) (key : string) : result yaml :=
  match config with
  | YDict d =>
      match d !! key with
      | Some v => Ok v
      | None => Raised (Exn KeyError ("'" +:+ key +:+ "'"))
      end
  | YNone => Raised (Exn TypeError "'NoneType' object is not subscriptable")
  | YList _ => Raised (Exn TypeError "list indices must be integers or slices, not str")
  | YStr _ => Raised (Exn TypeError "string indices must be integers")
  | YBool _ => Raised (Exn TypeError "'bool' object is not subscriptable")
  | YInt _ => Raised (Exn TypeError "'int' object is not subscriptable")
  | YFloat _ => Raised (Exn TypeError "'float' object is not subscriptable")
  end.

(** [config.get(key, default)] *)
Definition get_or (config : yaml) (key : string) (dflt : yaml) : result yaml :=
  match config with
  | YDict d => Ok (default dflt (d !! key))
  | _ => Raised (Exn AttributeError "object has no attribute 'get'")
  end.

(** Following a path of keys through nested mappings. *)
Fixpoint lookup_path (config : yaml) (path : list string) : option yaml :=
  match path with
  | [] => Some config
  | key :: rest =>
      match config with
      | YDict d =>
          match d !! key with
          | Some v => lookup_path v rest
          | None => None
          end
      | _ => None
      end
  end.

(** Arguments the callees annotate as [int] and [List[str]]: any other value
    makes the callee fail. *)
Definition as_int (v : yaml) : result Z :=
  match v with
  | YInt z => Ok z
  | _ => Raised (Exn TypeError "an integer is required")
  end.

Fixpoint as_str_list (items : list yaml) : result (list string) :=
  match items with
  | [] => Ok []
  | YStr s :: rest => result_map (cons s) (as_str_list rest)
  | _ :: _ => Raised (Exn TypeError "expected str")
  end.

Definition as_separators (v : yaml) : result (option (list string)) :=
  match v with
  | YNone => Ok None
  | YList items => result_map Some (as_str_list items)
  | _ => Raised (Exn TypeError "separators must be a list of str")
  end.

(** *** The world of one browser session *)

(** What [PDFLoader().load(path)] of [pdf_rag.core] returns. *)
Record PdfData : Type := MkPdfData {
  pdf_text : string;
  num_pages : Z
}.

(** The metadata [process_pdf] attaches to chunk [i]. *)
Record Metadata : Type := MkMeta {
  meta_source : string;
  meta_page_count : Z;
  meta_chunk_index : nat
}.

(** The modules of the package that the user interface imports
    ([pdf_rag.core], [pdf_rag.models]) and the services behind them.  [db] is
    the persistent collection the vector store talks to. *)
Class Core : Type := {
  embedder : Type;
  store : Type;
  llm_client : Type;
  retriever_t : Type;
  vector : Type;
  retrieved : Type;
  db : Type;
  (** [PDFLoader().load(path)], given the bytes at [path] *)
  PDFLoader_load : string -> result PdfData;
  (** [EmbeddingGenerator(model_name=, device=)] and [embed_texts] *)
  EmbeddingGenerator_new : yaml -> yaml -> result embedder;
  embed_texts : embedder -> list string -> result (list vector);
  (** [VectorStore(persist_directory=, collection_name=, distance_metric=)]
      and its methods *)
  VectorStore_new : yaml -> yaml -> yaml -> db -> result (store * db);
  add_documents :
    store -> list string -> list vector -> list Metadata -> db -> result db;
  get_collection_count : store -> db -> result Z;
  reset_collection : store -> db -> result db;
  (** [OpenRouterLLM(model_name=, temperature=, max_tokens=, app_name=)] and
      [generate_with_context(question=, context=, system_message=)] *)
  OpenRouterLLM_new : yaml -> yaml -> yaml -> yaml -> result llm_client;
  generate_with_context :
    llm_client -> string -> string -> string -> result string;
  (** [RAGRetriever(vector_store=, embedding_generator=, k=,
      score_threshold=)], [retrieve] and [format_context] *)
  RAGRetriever_new :
    option store -> option embedder -> yaml -> yaml -> result retriever_t;
  retrieve : retriever_t -> db -> string -> result (list retrieved);
  format_context : retriever_t -> list retrieved -> result string;
  (** [PromptTemplates.get_system_message(kind)] *)
  get_system_message : string -> result string
}.

(** Calls that leave [streamlit_app.py] and the two [utils] modules. *)
Inductive call : Type :=
| CallSplitterInit (size overlap : Z) (separators : option (list string))
| CallSplitText (text : string)
| CallPdfLoad (path : string)
| CallEmbedderNew
| CallEmbedTexts (texts : list string)
| CallStoreNew
| CallAddDocuments (texts : list string)
| CallCount
| CallReset
| CallLlmNew
| CallRetrieverNew
| CallRetrieve (question : string)
| CallFormatContext
| CallSystemMessage (kind : string)
| CallGenerate (question context system_message : string).

(** What the page shows. *)
Inductive ui : Type :=
| UiTitle (s : string)
| UiMarkdown (s : string)
| UiHeader (s : string)
| UiInfo (s : string)
| UiSuccess (s : string)
| UiError (s : string)
| UiMetric (label : string) (value : Z)
| UiSources (n : nat)
| UiHistory (n : nat).

Inductive level : Type := INFO | ERROR.

Section WithCore.
Context `{Splitting : TextSplitter} `{Services : Core}.

Record ChatEntry : Type := MkChat {
  chat_question : string;
  chat_answer : string;
  chat_sources : list retrieved
}.

(** [st.session_state], with the defaults the script installs. *)
Record Session : Type := MkSession {
  vector_store : option store;
  embedding_generator : option embedder;
  llm : option llm_client;
  retriever : option retriever_t;
  documents_loaded : bool;
  chat_history : list ChatEntry
}.

Definition initial_session : Session :=
  MkSession None None None None false [].

(** The disk: YAML files, each given by what [yaml.safe_load] does on it, and
    raw files. *)
Record world : Type := World {
  w_yaml : gmap string (result yaml);
  w_raw : gmap string string;
  w_environ : gmap string string;
  w_db : db;
  w_session : Session;
  w_ui : list ui;
  w_log : list (level * string);
  w_calls : list call
}.

Definition set_session (f : Session -> Session) : prog world unit :=
  modify (fun w => World (w_yaml w) (w_raw w) (w_environ w) (w_db w)
                         (f (w_session w)) (w_ui w) (w_log w) (w_calls w)).

Definition session {A} (f : Session -> A) : prog world A :=
  gets (fun w => f (w_session w)).

Definition st (e : ui) : prog world unit :=
  modify (fun w => World (w_yaml w) (w_raw w) (w_environ w) (w_db w)
                         (w_session w) (w_ui w ++ [e]) (w_log w) (w_calls w)).

Definition logger (l : level) (msg : string) : prog world unit :=
  modify (fun w => World (w_yaml w) (w_raw w) (w_environ w) (w_db w)
                         (w_session w) (w_ui w) (w_log w ++ [(l, msg)])
                         (w_calls w)).

(** [open(path, "wb").write(content)], taken to succeed. *)
Definition write_raw (path content : string) : prog world unit :=
  modify (fun w => World (w_yaml w) (<[path := content]> (w_raw w))
                         (w_environ w) (w_db w) (w_session w) (w_ui w)
                         (w_log w) (w_calls w)).

Definition record_call (c : call) (w : world) : world :=
  World (w_yaml w) (w_raw w) (w_environ w) (w_db w) (w_session w) (w_ui w)
        (w_log w) (w_calls w ++ [c]).

(** A call that does not touch the collection. *)
Definition lib {A} (c : call) (r : result A) : prog world A :=
  fun w => (r, record_call c w).

(** A call that reads the collection. *)
Definition lib_db {A} (c : call) (f : db -> result A) : prog world A :=
  fun w => (f (w_db w), record_call c w).

(** A call that updates the collection. *)
Definition lib_db_update {A} (c : call) (f : db -> result (A * db))
  : prog world A :=
  fun w =>
    match f (w_db w) with
    | Ok (a, d) =>
        (Ok a, World (w_yaml w) (w_raw w) (w_environ w) d (w_session w)
                     (w_ui w) (w_log w) (w_calls w ++ [c]))
    | Raised e => (Raised e, record_call c w)
    end.

Definition of_result {A} (r : result A) : prog world A := fun w => (r, w).

(** [PDFLoader().load(path)]: the loader reads the raw file at [path]. *)
Definition read_pdf (path : string) : prog world PdfData :=
  fun w =>
    (match w_raw w !! path with
     | Some bytes => PDFLoader_load bytes
     | None => Raised (Exn FileNotFoundError ("PDF file not found: " +:+ path))
     end,
     record_call (CallPdfLoad path) w).

(** *** [utils/text_processing.py]: class [TextProcessor] *)

Definition newline : string := String (Ascii.ascii_of_nat 10) EmptyString.

Definition default_separators : list string :=
  [newline +:+ newline; newline; ". "; " "; ""].

Record TextProcessor : Type := MkTextProcessor {
  chunk_size : Z;
  chunk_overlap : Z;
  text_splitter : splitter
}.

(** [TextProcessor.__init__] *)
Definition TextProcessor_init (chunk_size chunk_overlap : Z)
    (separators : option (list string)) : prog world TextProcessor :=
  let separators :=
    match separators with
    | None => default_separators
    | Some l => l
    end in
  let* sp :=
    lib (CallSplitterInit chunk_size chunk_overlap (Some separators))
        (RecursiveCharacterTextSplitter
           chunk_size chunk_overlap (Some separators)) in
  logger INFO ("TextProcessor initialized with chunk_size="
               +:+ pretty chunk_size +:+ ", chunk_overlap="
               +:+ pretty chunk_overlap);;
  ret (MkTextProcessor chunk_size chunk_overlap sp).

(** [TextProcessor.split_text] *)
Definition split_text (self : TextProcessor) (text : string)
  : prog world (list string) :=
  try_except
    (logger INFO ("Splitting text of length " +:+ pretty (String.length text));;
     let* chunks :=
       lib (CallSplitText text) (split_text_of (text_splitter self) text) in
     logger INFO ("Created " +:+ pretty (length chunks) +:+ " chunks");;
     ret chunks)
    (fun e =>
       logger ERROR ("Error splitting text: " +:+ exn_str e);;
       raise e).

(** *** [utils/config_loader.py]: class [ConfigLoader] *)

Record ConfigLoader : Type := MkConfigLoader {
  config_dir : string;
  configs : gmap string yaml
}.

(** [Path(dir) / file] *)
Definition joinpath (dir file : string) : string :=
  if String.prefix "/" file then file else dir +:+ "/" +:+ file.

(** [ConfigLoader.__init__] *)
Definition ConfigLoader_init (config_dir : string) : prog world ConfigLoader :=
  logger INFO ("ConfigLoader initialized with directory: " +:+ config_dir);;
  ret (MkConfigLoader config_dir ∅).

Definition startswith (pre s : string) : bool := String.prefix pre s.

Definition endswith (suf s : string) : bool :=
  (String.length suf <=? String.length s)%nat
  && String.eqb
       (String.substring (String.length s - String.length suf)
                         (String.length suf) s)
       suf.

(** [s[2:-1]] *)
Definition slice_2_m1 (s : string) : string :=
  String.substring 2 (String.length s - 3) s.

(** [os.getenv(name, default)] *)
Definition getenv (environ : gmap string string) (name dflt : string) : string :=
  default dflt (environ !! name).

(** [ConfigLoader._replace_env_vars] *)
Fixpoint replace_env_vars (environ : gmap string string) (config : yaml)
  : yaml :=
  match config with
  | YDict d => YDict (replace_env_vars environ <$> d)
  | YList l => YList (replace_env_vars environ <$> l)
  | YStr s =>
      if startswith "${" s && endswith "}" s
      then YStr (getenv environ (slice_2_m1 s) s)
      else YStr s
  | _ => config
  end.

(** [ConfigLoader.load_config]; the loader comes back with its cache
    updated. *)
Definition load_config (self : ConfigLoader) (config_file : string)
  : prog world (yaml * ConfigLoader) :=
  let config_path := joinpath (config_dir self) config_file in
  let* files := gets w_yaml in
  match files !! config_path with
  | None =>
      raise (Exn FileNotFoundError
                 ("Configuration file not found: " +:+ config_path))
  | Some parsed =>
      try_except
        (let* config := of_result parsed in
         let* environ := gets w_environ in
         let config := replace_env_vars environ config in
         logger INFO ("Loaded configuration from " +:+ config_file);;
         ret (config,
              MkConfigLoader (config_dir self)
                             (<[config_file := config]> (configs self))))
        (fun e =>
           logger ERROR ("Error loading configuration from " +:+ config_file
                         +:+ ": " +:+ exn_str e);;
           raise e)
  end.

(** [ConfigLoader.get_config] *)
Definition get_config (self : ConfigLoader) (config_file : string)
  : prog world (yaml * ConfigLoader) :=
  match configs self !! config_file with
  | None => load_config self config_file
  | Some config => ret (config, self)
  end.

(** [ConfigLoader.reload_config] *)
Definition reload_config (self : ConfigLoader) (config_file : string)
  : prog world (yaml * ConfigLoader) :=
  load_config self config_file.

(** *** [ui/streamlit_app.py] *)

Definition set_embedding_generator (g : embedder) (s : Session) : Session :=
  MkSession (vector_store s) (Some g) (llm s) (retriever s)
            (documents_loaded s) (chat_history s).

Definition set_vector_store (v : store) (s : Session) : Session :=
  MkSession (Some v) (embedding_generator s) (llm s) (retriever s)
            (documents_loaded s) (chat_history s).

Definition set_llm (l : llm_client) (s : Session) : Session :=
  MkSession (vector_store s) (embedding_generator s) (Some l) (retriever s)
            (documents_loaded s) (chat_history s).

Definition set_retriever (r : retriever_t) (s : Session) : Session :=
  MkSession (vector_store s) (embedding_generator s) (llm s) (Some r)
            (documents_loaded s) (chat_history s).

Definition set_documents_loaded (b : bool) (s : Session) : Session :=
  MkSession (vector_store s) (embedding_generator s) (llm s) (retriever s)
            b (chat_history s).

Definition set_chat_history (h : list ChatEntry) (s : Session) : Session :=
  MkSession (vector_store s) (embedding_generator s) (llm s) (retriever s)
            (documents_loaded s) h.

(** [obj.method(...)] on a session entry that may still be [None]. *)
Definition attr {A} (o : option A) (name : string) : prog world A :=
  match o with
  | Some a => ret a
  | None =>
      raise (Exn AttributeError
                 ("'NoneType' object has no attribute '" +:+ name +:+ "'"))
  end.

(** The [try] block of [initialize_components]. *)
Definition initialize_components_body : prog world bool :=
  let* config_loader := ConfigLoader_init "configs" in
  let* loaded := load_config config_loader "model_config.yaml" in
  let model_config := fst loaded in
  let* loaded := load_config (snd loaded) "rag_config.yaml" in
  let rag_config := fst loaded in
  let* current := session embedding_generator in
  (if truthy_opt current then ret tt else
     let* section := of_result (getitem model_config "embeddings") in
     let* model_name := of_result (getitem section "model_name") in
     let* section := of_result (getitem model_config "embeddings") in
     let* device := of_result (get_or section "device" (YStr "cpu")) in
     let* g := lib CallEmbedderNew (EmbeddingGenerator_new model_name device) in
     set_session (set_embedding_generator g));;
  let* current := session vector_store in
  (if truthy_opt current then ret tt else
     let* section := of_result (getitem rag_config "vector_store") in
     let* persist_directory := of_result (getitem section "persist_directory") in
     let* section := of_result (getitem rag_config "vector_store") in
     let* collection_name := of_result (getitem section "collection_name") in
     let* section := of_result (getitem rag_config "vector_store") in
     let* distance_metric :=
       of_result (get_or section "distance_metric" (YStr "cosine")) in
     let* v :=
       lib_db_update CallStoreNew
         (VectorStore_new persist_directory collection_name distance_metric) in
     set_session (set_vector_store v));;
  let* current := session llm in
  (if truthy_opt current then ret tt else
     let* section := of_result (getitem model_config "llm") in
     let* model_name := of_result (getitem section "model_name") in
     let* section := of_result (getitem model_config "llm") in
     let* temperature := of_result (getitem section "temperature") in
     let* section := of_result (getitem model_config "llm") in
     let* max_tokens := of_result (getitem section "max_tokens") in
     let* section := of_result (getitem model_config "openrouter") in
     let* app_name :=
       of_result (get_or section "app_name" (YStr "PDF-RAG-QA-System")) in
     let* l :=
       lib CallLlmNew
           (OpenRouterLLM_new model_name temperature max_tokens app_name) in
     set_session (set_llm l));;
  let* current := session retriever in
  (if truthy_opt current then ret tt else
     let* v := session vector_store in
     let* g := session embedding_generator in
     let* section := of_result (getitem rag_config "retrieval") in
     let* k := of_result (getitem section "k") in
     let* section := of_result (getitem rag_config "retrieval") in
     let* score_threshold := of_result (getitem section "score_threshold") in
     let* r := lib CallRetrieverNew (RAGRetriever_new v g k score_threshold) in
     set_session (set_retriever r));;
  ret true.

(** [initialize_components] *)
Definition initialize_components : prog world bool :=
  try_except initialize_components_body
    (fun e =>
       st (UiError ("Error initializing components: " +:+ exn_str e));;
       logger ERROR ("Initialization error: " +:+ exn_str e);;
       ret false).

(** An uploaded file: its name and its bytes. *)
Record Upload : Type := MkUpload {
  upload_name : string;
  upload_bytes : string
}.

(** The list comprehension building [metadatas] in [process_pdf]. *)
Definition metadatas_for (source : string) (pages : Z) (n : nat)
  : list Metadata :=
  (fun i => MkMeta source pages i) <$> seq 0 n.

(** The [try] block of [process_pdf]. *)
Definition process_pdf_body (uploaded_file : Upload) : prog world bool :=
  let* config_loader := ConfigLoader_init "configs" in
  let* loaded := load_config config_loader "rag_config.yaml" in
  let rag_config := fst loaded in
  let temp_path := joinpath "data/raw" (upload_name uploaded_file) in
  write_raw temp_path (upload_bytes uploaded_file);;
  let* pdf_data := read_pdf temp_path in
  st (UiSuccess ("✅ Loaded PDF with " +:+ pretty (num_pages pdf_data)
                 +:+ " pages"));;
  let* section := of_result (getitem rag_config "document_processing") in
  let* size := of_result (getitem section "chunk_size") in
  let* section := of_result (getitem rag_config "document_processing") in
  let* overlap := of_result (getitem section "chunk_overlap") in
  let* section := of_result (getitem rag_config "document_processing") in
  let* separators := of_result (getitem section "separators") in
  let* size := of_result (as_int size) in
  let* overlap := of_result (as_int overlap) in
  let* separators := of_result (as_separators separators) in
  let* text_processor := TextProcessor_init size overlap separators in
  let* chunks := split_text text_processor (pdf_text pdf_data) in
  st (UiSuccess ("✅ Created " +:+ pretty (length chunks) +:+ " text chunks"));;
  let* g := session embedding_generator in
  let* g := attr g "embed_texts" in
  let* embeddings := lib (CallEmbedTexts chunks) (embed_texts g chunks) in
  st (UiSuccess ("✅ Generated " +:+ pretty (length embeddings)
                 +:+ " embeddings"));;
  let metadatas :=
    metadatas_for (upload_name uploaded_file) (num_pages pdf_data)
                  (length chunks) in
  let* v := session vector_store in
  let* v := attr v "add_documents" in
  lib_db_update (CallAddDocuments chunks)
    (fun d => result_map (pair tt) (add_documents v chunks embeddings metadatas d));;
  st (UiSuccess ("✅ Stored " +:+ pretty (length chunks)
                 +:+ " chunks in vector database"));;
  set_session (set_documents_loaded true);;
  ret true.

(** [process_pdf] *)
Definition process_pdf (uploaded_file : Upload) : prog world bool :=
  try_except (process_pdf_body uploaded_file)
    (fun e =>
       st (UiError ("Error processing PDF: " +:+ exn_str e));;
       logger ERROR ("PDF processing error: " +:+ exn_str e);;
       ret false).

(** What [answer_question] returns: a bare string on one path, a pair of an
    answer and its sources on the others. *)
Inductive answer : Type :=
| AnswerStr (message : string)
| AnswerPair (text : string) (sources : list retrieved).

Definition no_information : string :=
  "I couldn't find any relevant information in the uploaded documents to answer your question.".

(** The [try] block of [answer_question]. *)
Definition answer_question_body (question : string) : prog world answer :=
  let* r := session retriever in
  let* r := attr r "retrieve" in
  let* retrieved_docs :=
    lib_db (CallRetrieve question) (fun d => retrieve r d question) in
  if negb (truthy_list retrieved_docs) then
    ret (AnswerStr no_information)
  else
    let* r := session retriever in
    let* r := attr r "format_context" in
    let* context :=
      lib CallFormatContext (format_context r retrieved_docs) in
    let* system_message :=
      lib (CallSystemMessage "qa") (get_system_message "qa") in
    let* l := session llm in
    let* l := attr l "generate_with_context" in
    let* text :=
      lib (CallGenerate question context system_message)
          (generate_with_context l question context system_message) in
    let* history := session chat_history in
    set_session
      (set_chat_history (history ++ [MkChat question text retrieved_docs]));;
    ret (AnswerPair text retrieved_docs).

(** [answer_question] *)
Definition answer_question (question : string) : prog world answer :=
  try_except (answer_question_body question)
    (fun e =>
       logger ERROR ("Error answering question: " +:+ exn_str e);;
       ret (AnswerPair ("Error generating answer: " +:+ exn_str e) [])).

(** [answer, sources = ...]: a pair unpacks; a bare string is iterated
    character by character and must have exactly two of them, which the only
    string [answer_question] returns has not. *)
Definition unpack (a : answer) : prog world (string * list retrieved) :=
  match a with
  | AnswerPair text sources => ret (text, sources)
  | AnswerStr message =>
      if (2 <? String.length message)%nat
      then raise (Exn ValueError "too many values to unpack (expected 2)")
      else raise (Exn ValueError "not enough values to unpack (expected 2)")
  end.

(** The state of the widgets in one run of the script. *)
Record widgets : Type := MkWidgets {
  uploaded_file : option Upload;
  process_clicked : bool;
  clear_clicked : bool;
  question_input : string;
  answer_clicked : bool
}.

Definition upload_prompt : string :=
  "👈 Please upload and process a PDF to get started".

(** [main], up to the sidebar: titles and [initialize_components]. *)
Definition startup : prog world unit :=
  st (UiTitle "📚 PDF Question Answering System");;
  st (UiMarkdown "Upload PDFs and ask questions about their content using RAG (Retrieval-Augmented Generation)");;
  let* ready := initialize_components in
  if negb ready then raise (Exn StopException "") else ret tt.

(** The file the run is asked to process: one is uploaded and the
    "Process PDF" button is pressed. *)
Definition requested (ws : widgets) : option Upload :=
  match uploaded_file ws with
  | Some f => if process_clicked ws then Some f else None
  | None => None
  end.

(** The sidebar of [main]: the upload part ... *)
Definition upload_section (ws : widgets) : prog world unit :=
  st (UiHeader "📄 Upload PDF");;
  match requested ws with
  | Some f => process_pdf f;; ret tt
  | None => ret tt
  end.

(** ... and the statistics part, with the "Clear Database" button. *)
Definition stats_section (ws : widgets) : prog world unit :=
  st (UiHeader "📊 Database Stats");;
  let* v := session vector_store in
  let* doc_count :=
    match v with
    | Some v => lib_db CallCount (get_collection_count v)
    | None => ret 0
    end in
  st (UiMetric "Documents in Database" doc_count);;
  if (0 <? doc_count) && clear_clicked ws then
    let* v := session vector_store in
    let* v := attr v "reset_collection" in
    lib_db_update CallReset
      (fun d => result_map (pair tt) (reset_collection v d));;
    set_session (set_documents_loaded false);;
    set_session (set_chat_history []);;
    st (UiSuccess "Database cleared!");;
    raise (Exn RerunException "")
  else ret tt.

(** The main content area of [main]. *)
Definition content (ws : widgets) : prog world unit :=
  let* loaded := session documents_loaded in
  if negb loaded then
    st (UiInfo upload_prompt)
  else
    st (UiSuccess "✅ Documents loaded! Ask questions below.");;
    (if answer_clicked ws && truthy_str (question_input ws) then
       let* a := answer_question (question_input ws) in
       let* unpacked := unpack a in
       st (UiMarkdown "### Answer");;
       st (UiMarkdown (fst unpacked));;
       if truthy_list (snd unpacked)
       then st (UiSources (length (snd unpacked)))
       else ret tt
     else ret tt);;
    let* history := session chat_history in
    if truthy_list history then st (UiHistory (length history)) else ret tt.

(** [main]: one run of the script. *)
Definition main (ws : widgets) : prog world unit :=
  startup;;
  upload_section ws;;
  stats_section ws;;
  content ws.

(** The steps a run of [main] is made of. *)
Inductive action : Type :=
| Startup
| Show (e : ui)
| ProcessPdf (f : Upload)
| Stats (ws : widgets)
| Content (ws : widgets).

(** Performing a step: the world it leaves, and whether it loaded a document,
    that is, whether it is a [process_pdf] that returned [True]. *)
Definition perform (a : action) (w : world) : bool * world :=
  match a with
  | Startup => (false, snd (startup w))
  | Show e => (false, snd (st e w))
  | ProcessPdf f =>
      match process_pdf f w with
      | (Ok b, w') => (b, w')
      | (Raised _, w') => (false, w')
      end
  | Stats ws => (false, snd (stats_section ws w))
  | Content ws => (false, snd (content ws w))
  end.

(** Worlds reached from [w0] by steps none of which loaded a document. *)
Inductive reach_unloaded (w0 : world) : world -> Prop :=
| ru_init : reach_unloaded w0 w0
| ru_step w a :
    reach_unloaded w0 w ->
    fst (perform a w) = false ->
    reach_unloaded w0 (snd (perform a w)).

(** A world in which the session still has the script's defaults. *)
Definition fresh (w : world) : Prop := w_session w = initial_session.

(** The session has no document loaded. *)
Definition unloaded (w : world) : Prop :=
  documents_loaded (w_session w) = false.

(** A block that keeps a property of the world, however it ends. *)
Definition preserves {A} (P : world -> Prop) (m : prog world A) : Prop :=
  forall w, P w -> P (snd (m w)).

(** A block that returns [True] or else keeps the property. *)
Definition true_or_preserves (P : world -> Prop) (m : prog world bool)
  : Prop :=
  forall w, P w -> fst (m w) = Ok true \/ P (snd (m w)).

(** Whether the run [main ws] from [w] loads a document: a file is to be
    processed, the run gets as far as [process_pdf], and that returns
    [True]. *)
Definition run_loads (ws : widgets) (w : world) : bool :=
  match requested ws with
  | Some f =>
      match (startup;; st (UiHeader "📄 Upload PDF")) w with
      | (Ok _, w') => fst (perform (ProcessPdf f) w')
      | (Raised _, _) => false
      end
  | None => false
  end.

End WithCore.

End PdfRag.

(** ** The rest of [utils/text_processing.py] *)

Module PdfRagText.
Import PdfRag.

(** One element of the list [create_documents] returns. *)
Record ChunkDocument : Type := MkChunkDocument {
  doc_text : string;
  doc_metadata : gmap string yaml
}.

Section WithCore.
Context `{Splitting : TextSplitter} `{Services : Core}.

(** [metadatas[i] if metadatas and i < len(metadatas) else {}] *)
Definition metadata_at (metadatas : option (list (gmap string yaml)))
    (i : nat) : gmap string yaml :=
  match metadatas with
  | Some l => default ∅ (l !! i)
  | None => ∅
  end.

(** The inner loop of [create_documents]: the documents of the chunks
    [chunks], numbered from [chunk_idx], of a text with [total] chunks. *)
Fixpoint chunk_documents (metadata : gmap string yaml) (total : nat)
    (chunk_idx : nat) (chunks : list string) : list ChunkDocument :=
  match chunks with
  | [] => []
  | chunk :: rest =>
      MkChunkDocument chunk
        (<["total_chunks" := YInt (Z.of_nat total)]>
           (<["chunk_index" := YInt (Z.of_nat chunk_idx)]> metadata))
      :: chunk_documents metadata total (S chunk_idx) rest
  end.

(** The outer loop of [create_documents], at text number [i]. *)
Fixpoint create_documents_loop (self : TextProcessor)
    (metadatas : option (list (gmap string yaml)))
    (i : nat) (texts : list string) (all_chunks : list ChunkDocument)
  : prog world (list ChunkDocument) :=
  match texts with
  | [] => ret all_chunks
  | text :: rest =>
      let* chunks := split_text self text in
      let metadata := metadata_at metadatas i in
      create_documents_loop self metadatas (S i) rest
        (all_chunks ++ chunk_documents metadata (length chunks) 0 chunks)
  end.

(** The chunks of a text, none when the splitter fails on it. *)
Definition chunks_of_text (self : TextProcessor) (text : string)
  : list string :=
  match split_text_of (text_splitter self) text with
  | Ok chunks => chunks
  | Raised _ => []
  end.

(** A document carries its position among the chunks of its text and their
    number. *)
Definition numbered (d : ChunkDocument) : Prop :=
  exists idx total,
    doc_metadata d !! "chunk_index" = Some (YInt idx)
    /\ doc_metadata d !! "total_chunks" = Some (YInt total)
    /\ 0 <= idx < total.

(** [TextProcessor.create_documents] *)
Definition create_documents (self : TextProcessor) (texts : list string)
    (metadatas : option (list (gmap string yaml)))
  : prog world (list ChunkDocument) :=
  try_except
    (let* all_chunks := create_documents_loop self metadatas 0 texts [] in
     logger INFO ("Created " +:+ pretty (length all_chunks)
                  +:+ " document chunks from " +:+ pretty (length texts)
                  +:+ " texts");;
     ret all_chunks)
    (fun e =>
       logger ERROR ("Error creating documents: " +:+ exn_str e);;
       raise e).

End WithCore.

(** *** [TextProcessor.clean_text]

    A text is a sequence of characters; which characters [str.split] treats
    as whitespace is given by [isspace]. *)
Section CleanText.
Context {char : Type} `{EqDecision char}.
Variable isspace : char -> bool.
Variable space nul : char.

(** [text.split()]: the maximal runs of characters that are not
    whitespace. *)
Fixpoint split_whitespace (text : list char) : list (list char) :=
  match text with
  | [] => []
  | c :: rest =>
      if isspace c then split_whitespace rest
      else
        match rest with
        | [] => [[c]]
        | c' :: _ =>
            if isspace c' then [c] :: split_whitespace rest
            else
              match split_whitespace rest with
              | word :: words => (c :: word) :: words
              | [] => [[c]]
              end
        end
  end.

(** A word: not empty and without whitespace. *)
Definition is_word (word : list char) : Prop :=
  word <> [] /\ Forall (fun c => isspace c = false) word.

(** [' '.join(words)] *)
Fixpoint join_space (words : list (list char)) : list char :=
  match words with
  | [] => []
  | [word] => word
  | word :: words' => word ++ space :: join_space words'
  end.

(** [text.replace('\x00', '')] *)
Definition remove_nul (text : list char) : list char :=
  filter (fun c => c <> nul) text.

(** [TextProcessor.clean_text] *)
Definition clean_text (text : list char) : list char :=
  remove_nul (join_space (split_whitespace text)).

End CleanText.

End PdfRagText.

(** ** The command-line application: [pdf_rag_app/main.py] *)

Module PdfRagAppMain.
Import PdfRagApp.

(** What [main.py] uses besides the libraries of [pdf_loader.py] and
    [rag.py]: the [.env] file read by [load_dotenv], two path operations,
    [os.makedirs] and two methods of [str]. *)
Class System `{Libs : Libraries} : Type := {
  (** [load_dotenv()]: the environment after the [.env] file is read *)
  load_dotenv : gmap string string -> gmap string string;
  (** [os.path.join(a, b)] and [str(Path(a) / b)] *)
  path_join : string -> string -> string;
  (** [os.makedirs(path, exist_ok=True)] *)
  makedirs : string -> disk -> result disk;
  (** [s.strip()] and [s.lower()] *)
  str_strip : string -> string;
  str_lower : string -> string
}.

(** What [input()] meets: a line typed by the user, or Ctrl-C. *)
Inductive keyboard : Type :=
| Line (text : string)
| CtrlC.

(** How [interactive_qa_session] stops.  [InputExhausted] stands for the
    case where nothing is left to read: every further [input()] raises
    [EOFError], which the loop catches, prints and retries. *)
Inductive session_end : Type :=
| NotInitialized
| Exited
| Interrupted
| InputExhausted.

Section WithSystem.
Context `{Splitting : TextSplitter} `{Libs : Libraries} {Sys : System}.

Definition nl : string := String (Ascii.ascii_of_nat 10) EmptyString.

(** [s * n] *)
Fixpoint str_times (s : string) (n : nat) : string :=
  match n with
  | O => ""
  | S n' => s +:+ str_times s n'
  end.

(** [os.makedirs] changes the disk and is no call to a backend. *)
Definition disk_write (f : disk -> result disk) : prog world unit :=
  fun w =>
    match f (w_disk w) with
    | Ok d => (Ok tt, World d (w_stdout w) (w_calls w))
    | Raised e => (Raised e, w)
    end.

(** [try: body / except cls as e: handler e], for the classes [catches]
    accepts. *)
Definition try_except_class {W A} (catches : exn -> bool)
    (body : prog W A) (handler : exn -> prog W A) : prog W A :=
  fun w =>
    match body w with
    | (Ok a, w') => (Ok a, w')
    | (Raised e, w') => if catches e then handler e w' else (Raised e, w')
    end.

Definition is_ConnectionError (e : exn) : bool :=
  match exn_cls e with ConnectionError => true | _ => false end.

Definition is_KeyboardInterrupt (e : exn) : bool :=
  match exn_cls e with KeyboardInterrupt => true | _ => false end.

(** A method call on the system [r]: the value comes back with the object as
    the call leaves it. *)
Definition on_system {A} (r : RAGSystem) (m : prog cli A)
  : prog world (A * RAGSystem) :=
  fun w =>
    match m (Cli w r) with
    | (Ok a, s) => (Ok (a, cli_self s), cli_world s)
    | (Raised e, s) => (Raised e, cli_world s)
    end.

(** [load_environment] *)
Definition load_environment (environ : gmap string string)
  : gmap string string * (string * string * string) :=
  let environ := load_dotenv environ in
  (environ,
   (default "http://localhost:11434" (environ !! "OLLAMA_BASE_URL"),
    default "nomic-embed-text" (environ !! "EMBEDDING_MODEL"),
    default "mistral" (environ !! "LLM_MODEL"))).

(** [initialize_system] *)
Definition initialize_system
    (data_dir vector_store_dir ollama_url embedding_model llm_model : string)
  : prog world (PDFLoader * option RAGSystem) :=
  let* pdf_loader := PDFLoader_init 1000 200 in
  let* documents := load_pdfs_from_directory pdf_loader data_dir in
  if negb (truthy_list documents) then
    print ("Warning: No documents found in " +:+ data_dir);;
    ret (pdf_loader, None)
  else
    let* rag_system :=
      try_except_class is_ConnectionError
        (let* r := RAGSystem_init ollama_url embedding_model llm_model in
         ret (Some r))
        (fun e => print ("Error: " +:+ exn_str e);; ret None) in
    match rag_system with
    | None => ret (pdf_loader, None)
    | Some rag_system =>
        let vector_store_path := path_join vector_store_dir "faiss_index" in
        disk_write (makedirs vector_store_dir);;
        let* built :=
          on_system rag_system
            (build_vector_store documents (Some vector_store_path)) in
        let* ready := on_system (snd built) setup_qa_chain in
        ret (pdf_loader, Some (snd ready))
    end.

(** The [for] loop of [batch_qa]; [i] is the number of the next question. *)
Fixpoint batch_loop (rag_system : RAGSystem) (i : nat)
    (questions : list string) (results : list Answer)
  : prog world (list Answer) :=
  match questions with
  | [] => ret results
  | question :: rest =>
      print (nl +:+ "Question " +:+ pretty i +:+ ": " +:+ question);;
      let* answered := on_system rag_system (answer_question question) in
      print ("Answer: " +:+ ans_answer (fst answered) +:+ nl);;
      batch_loop (snd answered) (S i) rest (results ++ [fst answered])
  end.

(** [batch_qa]; [None] is the bare [return] of the uninitialised case. *)
Definition batch_qa (rag_system : option RAGSystem) (questions : list string)
  : prog world (option (list Answer)) :=
  match rag_system with
  | None => print "RAG System not initialized.";; ret None
  | Some r =>
      let* results := batch_loop r 1 questions [] in
      ret (Some results)
  end.

(** The loop printing the sources of one answer, numbered from [i]. *)
Fixpoint print_sources (i : nat) (sources : list Document) : prog world unit :=
  match sources with
  | [] => ret tt
  | doc :: rest =>
      print ("  " +:+ pretty i +:+ ". "
             +:+ default "Unknown" (metadata doc !! "source"));;
      print_sources (S i) rest
  end.

(** The [try] block of one iteration of the loop in
    [interactive_qa_session], once [input()] has returned [typed]; [Some]
    means [break]. *)
Definition turn (rag_system : RAGSystem) (typed : string)
  : prog world (option session_end) :=
  let question := str_strip typed in
  if String.eqb (str_lower question) "exit" then
    print "Goodbye!";; ret (Some Exited)
  else if negb (truthy_str question) then
    print ("Please enter a valid question." +:+ nl);; ret None
  else
    print (nl +:+ "Processing your question...");;
    let* answered := on_system rag_system (answer_question question) in
    let result := fst answered in
    print (nl +:+ "Answer: " +:+ ans_answer result);;
    (if truthy_list (ans_sources result) then
       print (nl +:+ "Source Documents:");;
       print_sources 1 (ans_sources result)
     else ret tt);;
    print (nl +:+ str_times "-" 60 +:+ nl);;
    ret None.

(** One iteration with its two [except] clauses. *)
Definition guarded_turn (rag_system : RAGSystem) (key : keyboard)
  : prog world (option session_end) :=
  try_except_class is_KeyboardInterrupt
    (try_except
       (print "Your question: ";;
        match key with
        | Line typed => turn rag_system typed
        | CtrlC => raise (Exn KeyboardInterrupt "")
        end)
       (fun e =>
          print ("Error processing question: " +:+ exn_str e +:+ nl);;
          ret None))
    (fun _ =>
       print (nl +:+ nl +:+ "Session interrupted. Goodbye!");;
       ret (Some Interrupted)).

(** The [while True] loop over what the keyboard delivers. *)
Fixpoint session_loop (rag_system : RAGSystem) (keys : list keyboard)
  : prog world session_end :=
  match keys with
  | [] => ret InputExhausted
  | key :: rest =>
      let* stop := guarded_turn rag_system key in
      match stop with
      | Some ending => ret ending
      | None => session_loop rag_system rest
      end
  end.

(** [interactive_qa_session] *)
Definition interactive_qa_session (rag_system : option RAGSystem)
    (keys : list keyboard) : prog world session_end :=
  match rag_system with
  | None =>
      print "RAG System not initialized. Cannot start Q&A session.";;
      ret NotInitialized
  | Some r =>
      print (nl +:+ str_times "=" 60);;
      print "PDF RAG Question-Answering System (Ollama)";;
      print (str_times "=" 60);;
      print "Enter your questions about the PDF documents.";;
      print ("Type 'exit' to quit." +:+ nl);;
      session_loop r keys
  end.

(** The lines a session acts on: what is typed, stripped, up to the first
    [exit] or Ctrl-C, without the blank ones. *)
Fixpoint asked (keys : list keyboard) : list string :=
  match keys with
  | [] => []
  | CtrlC :: _ => []
  | Line typed :: rest =>
      let question := str_strip typed in
      if String.eqb (str_lower question) "exit" then []
      else if truthy_str question then question :: asked rest
      else asked rest
  end.

(** How a session over [keys] ends when no question interrupts it. *)
Fixpoint ending_of (keys : list keyboard) : session_end :=
  match keys with
  | [] => InputExhausted
  | CtrlC :: _ => Interrupted
  | Line typed :: rest =>
      if String.eqb (str_lower (str_strip typed)) "exit" then Exited
      else ending_of rest
  end.

(** An outcome that an [except Exception] clause handles. *)
Definition catchable {A} (r : result A) : bool :=
  match r with
  | Ok _ => true
  | Raised e => is_Exception e
  end.

(** The chunks [load_pdf] returns for a file: those of its pages, or none
    when reading or splitting fails. *)
Definition file_chunks (self : PDFLoader) (d : disk) (path : string)
  : list Document :=
  match PyPDFLoader_load d path with
  | Ok documents =>
      match split_documents_of (text_splitter self) documents with
      | Ok chunks => chunks
      | Raised _ => []
      end
  | Raised _ => []
  end.

(** Reading and splitting the file fail, if at all, with an [Exception]. *)
Definition file_catchable (self : PDFLoader) (d : disk) (path : string)
  : bool :=
  match PyPDFLoader_load d path with
  | Ok documents =>
      catchable (split_documents_of (text_splitter self) documents)
  | Raised e => is_Exception e
  end.

(** The answer [answer_question] builds from what the chain returns. *)
Definition answer_of (question : string) (out : ChainOutput) : Answer :=
  MkAnswer question (out_result out) (default [] (out_source_documents out)).

(** What the chain [c] returns on a question. *)
Definition ask_chain (c : QAChain) (question : string) : result ChainOutput :=
  chain_call (qa_llm c) (qa_store c) (qa_k c) question.

(** The answers to [questions] as long as the chain returns. *)
Fixpoint answers_of (c : QAChain) (questions : list string) : list Answer :=
  match questions with
  | [] => []
  | question :: rest =>
      match ask_chain c question with
      | Ok out => answer_of question out :: answers_of c rest
      | Raised _ => []
      end
  end.

(** The calls made while PDF files are read and split. *)
Definition loader_call (c : call) : bool :=
  match c with
  | CallSplitterInit _ _ | CallPdfLoad _ | CallSplitDocuments _ => true
  | _ => false
  end.

(** [main], started in the directory [current_dir] of the script. *)
Definition main (current_dir : string) (environ : gmap string string)
    (keys : list keyboard) : prog world (option session_end) :=
  let '(ollama_url, embedding_model, llm_model) :=
    snd (load_environment environ) in
  let data_dir := path_join current_dir "data" in
  let vector_store_dir := path_join current_dir "vector_store" in
  print "Initializing RAG System with Ollama...";;
  print ("Ollama URL: " +:+ ollama_url);;
  print ("Embedding Model: " +:+ embedding_model);;
  print ("LLM Model: " +:+ llm_model +:+ nl);;
  let* initialized :=
    initialize_system data_dir vector_store_dir
                      ollama_url embedding_model llm_model in
  match snd initialized with
  | None =>
      print "Failed to initialize RAG System. Please check Ollama is running.";;
      ret None
  | Some rag_system =>
      print ("RAG System initialized successfully!" +:+ nl);;
      let* ending := interactive_qa_session (Some rag_system) keys in
      ret (Some ending)
  end.

End WithSystem.

End PdfRagAppMain.

(** ** Concrete collaborators

    Small stand-ins for the libraries and services, used to run the embedding
    on concrete inputs. *)

Module Sample.

(** A splitter object remembers its configuration.  The constructor has the
    guard of the library's [TextSplitter.__init__], which raises a
    [ValueError] when [chunk_overlap > chunk_size]; the splitting methods
    return their input in one piece. *)
Record splitter_cfg : Type := SplitterCfg {
  cfg_size : Z;
  cfg_overlap : Z;
  cfg_separators : option (list string)
}.

Definition splitter_new (size overlap : Z) (separators : option (list string))
  : result splitter_cfg :=
  if size <? overlap then
    Raised (Exn ValueError
                ("Got a larger chunk overlap (" +:+ pretty overlap
                 +:+ ") than chunk size (" +:+ pretty size
                 +:+ "), should be smaller."))
  else Ok (SplitterCfg size overlap separators).

#[global] Instance sample_splitter : TextSplitter := {
  splitter := splitter_cfg;
  RecursiveCharacterTextSplitter := splitter_new;
  split_text_of := fun _ text => Ok [text];
  split_documents_of := fun _ docs => Ok docs
}.

(** A FAISS store: its documents, the model whose vectors it holds and the
    embedding object it queries with. *)
Record faiss : Type := Faiss {
  faiss_docs : list Document;
  faiss_built_with : string;
  faiss_embedding : PdfRagApp.OllamaEmbeddings
}.

(** A disk: PDF files that can be read (with their pages) or not (with the
    reader's error), and saved stores (documents and the model that embedded
    them). *)
Record files : Type := Files {
  pdf_files : gmap string (result (list Document));
  saved_stores : gmap string (list Document * string)
}.

Definition pdf_read (d : files) (path : string) : result (list Document) :=
  match pdf_files d !! path with
  | Some r => r
  | None => Raised (Exn FileNotFoundError ("File path " +:+ path +:+ " is not a valid file"))
  end.

(** Loading reads the saved documents back and attaches the embedding object
    it is given: no record of the model is compared. *)
Definition faiss_load (d : files) (path : string)
    (e : PdfRagApp.OllamaEmbeddings) : result faiss :=
  match saved_stores d !! path with
  | Some (docs, model) => Ok (Faiss docs model e)
  | None => Raised (Exn OtherError ("could not open " +:+ path))
  end.

Definition faiss_save (v : faiss) (path : string) (d : files) : result files :=
  Ok (Files (pdf_files d)
            (<[path := (faiss_docs v, faiss_built_with v)]> (saved_stores d))).

#[global] Instance sample_libraries : PdfRagApp.Libraries := {
  PdfRagApp.disk := files;
  PdfRagApp.vstore := faiss;
  PdfRagApp.PyPDFLoader_load := pdf_read;
  PdfRagApp.path_exists :=
    fun d path => bool_decide (is_Some (saved_stores d !! path));
  PdfRagApp.glob_pdf := fun d _ => fst <$> map_to_list (pdf_files d);
  PdfRagApp.path_name := fun path => path;
  PdfRagApp.FAISS_load_local := faiss_load;
  PdfRagApp.FAISS_from_documents :=
    fun docs e => Ok (Faiss docs (PdfRagApp.emb_model e) e);
  PdfRagApp.FAISS_save_local := faiss_save;
  PdfRagApp.similarity_search :=
    fun v _ k => Ok (take (Z.to_nat k) (faiss_docs v));
  PdfRagApp.chain_call :=
    fun _ v k _ =>
      Ok (PdfRagApp.ChainOut "I don't have enough information"
            (Some (take (Z.to_nat k) (faiss_docs v))));
  PdfRagApp.http_get_status := fun _ => Ok 200
}.

Definition page (text : string) : Document := Doc text ∅.

Definition sample_docs : list Document :=
  [page "Paris is the capital of France.";
   page "It is known for the Eiffel Tower."].

(** A disk with one unreadable PDF and no saved store. *)
Definition sample_disk : files :=
  Files {[ "data/corrupt.pdf" := Raised (Exn OtherError "EOF marker not found") ]}
        ∅.

Definition sample_world : PdfRagApp.world :=
  PdfRagApp.World sample_disk [] [].

Definition sample_loader : PdfRagApp.PDFLoader :=
  PdfRagApp.MkPDFLoader 1000 200 (SplitterCfg 1000 200 None).

(** A system configured for the embedding model [model], as
    [RAGSystem.__init__] leaves it. *)
Definition sample_rag (model : string) : PdfRagApp.RAGSystem :=
  PdfRagApp.MkRAG "http://localhost:11434" model "mistral"
    (PdfRagApp.Embeddings "http://localhost:11434" model)
    (PdfRagApp.Llm "http://localhost:11434" "mistral")
    None None.

Definition index_path : string := "vector_store/faiss_index".

(** The disk after a system configured for model ["A"] has built and saved an
    index at [index_path]. *)
Definition disk_saved_by_A : files :=
  PdfRagApp.w_disk
    (PdfRagApp.cli_world
       (snd (PdfRagApp.build_vector_store sample_docs (Some index_path)
               (PdfRagApp.Cli sample_world (sample_rag "A"))))).

Definition world_saved_by_A : PdfRagApp.world :=
  PdfRagApp.World disk_saved_by_A [] [].

(** A system configured for [model], freshly constructed in that world. *)
Definition system_after_A (model : string) : PdfRagApp.cli :=
  PdfRagApp.Cli world_saved_by_A (sample_rag model).

(** The world and the system that [RAGSystem.__init__] leaves when started in
    [sample_world]. *)
Definition connected_world : PdfRagApp.world :=
  PdfRagApp.World sample_disk
    ["✓ Connected to Ollama at http://localhost:11434"]
    [PdfRagApp.CallHttpGet "http://localhost:11434/api/tags"].

Definition fresh_system : PdfRagApp.cli :=
  PdfRagApp.Cli connected_world (sample_rag "nomic-embed-text").

(** The services of the Streamlit variant: the collection is the list of
    stored texts, and retrieval returns the stored texts equal to the
    question. *)
#[global] Instance sample_core : PdfRag.Core := {
  PdfRag.embedder := unit;
  PdfRag.store := unit;
  PdfRag.llm_client := unit;
  PdfRag.retriever_t := unit;
  PdfRag.vector := unit;
  PdfRag.retrieved := string;
  PdfRag.db := list string;
  PdfRag.PDFLoader_load := fun bytes => Ok (PdfRag.MkPdfData bytes 1);
  PdfRag.EmbeddingGenerator_new := fun _ _ => Ok tt;
  PdfRag.embed_texts := fun _ texts => Ok ((fun _ => tt) <$> texts);
  PdfRag.VectorStore_new := fun _ _ _ d => Ok (tt, d);
  PdfRag.add_documents := fun _ texts _ _ d => Ok (d ++ texts);
  PdfRag.get_collection_count := fun _ d => Ok (Z.of_nat (length d));
  PdfRag.reset_collection := fun _ _ => Ok [];
  PdfRag.OpenRouterLLM_new := fun _ _ _ _ => Ok tt;
  PdfRag.generate_with_context := fun _ _ context _ => Ok context;
  PdfRag.RAGRetriever_new := fun _ _ _ _ => Ok tt;
  PdfRag.retrieve :=
    fun _ d question => Ok (filter (fun t => t = question) d);
  PdfRag.format_context := fun _ docs => Ok (String.concat PdfRag.newline docs);
  PdfRag.get_system_message := fun _ => Ok "Answer from the context."
}.

(** The two configuration files with every key the components read, and one
    more that none of them reads. *)
Definition model_config : PdfRag.yaml :=
  PdfRag.YDict
    {[ "embeddings" :=
         PdfRag.YDict {[ "model_name" := PdfRag.YStr "all-MiniLM-L6-v2";
                         "device" := PdfRag.YStr "cpu" ]};
       "llm" :=
         PdfRag.YDict {[ "model_name" := PdfRag.YStr "${LLM_MODEL}";
                         "temperature" := PdfRag.YFloat "0.7";
                         "max_tokens" := PdfRag.YInt 1000 ]};
       "openrouter" := PdfRag.YDict {[ "app_name" := PdfRag.YStr "demo" ]};
       "unknown_option" := PdfRag.YInt 1 ]}.

Definition rag_config : PdfRag.yaml :=
  PdfRag.YDict
    {[ "vector_store" :=
         PdfRag.YDict {[ "persist_directory" := PdfRag.YStr "data/chroma";
                         "collection_name" := PdfRag.YStr "pdf_documents";
                         "distance_metric" := PdfRag.YStr "cosine" ]};
       "retrieval" :=
         PdfRag.YDict {[ "k" := PdfRag.YInt 3;
                         "score_threshold" := PdfRag.YFloat "0.7" ]};
       "document_processing" :=
         PdfRag.YDict {[ "chunk_size" := PdfRag.YInt 1000;
                         "chunk_overlap" := PdfRag.YInt 200;
                         "separators" := PdfRag.YNone ]};
       "unknown_option" := PdfRag.YInt 1 ]}.

(** A browser session at its first run, with the two files on disk and the
    stored texts [texts] in the collection. *)
Definition web_world (texts : list string) (session : PdfRag.Session)
  : PdfRag.world :=
  PdfRag.World
    {[ "configs/model_config.yaml" := Ok model_config;
       "configs/rag_config.yaml" := Ok rag_config ]}
    ∅ {[ "LLM_MODEL" := "openai/gpt-4o-mini" ]} texts session [] [] [].

(** [model_config.yaml] with the [embeddings] and [llm] options only. *)
Definition model_config_13 : PdfRag.yaml :=
  PdfRag.YDict
    {[ "embeddings" :=
         PdfRag.YDict {[ "model_name" := PdfRag.YStr "all-MiniLM-L6-v2";
                         "device" := PdfRag.YStr "cpu" ]};
       "llm" :=
         PdfRag.YDict {[ "model_name" := PdfRag.YStr "openai/gpt-4o-mini";
                         "temperature" := PdfRag.YFloat "0.7";
                         "max_tokens" := PdfRag.YInt 1000 ]} ]}.

Definition world_13 : PdfRag.world :=
  PdfRag.World
    {[ "configs/model_config.yaml" := Ok model_config_13;
       "configs/rag_config.yaml" := Ok rag_config ]}
    ∅ ∅ [] PdfRag.initial_session [] [] [].

(** The same session when [model_config.yaml] holds nothing but the unread
    key. *)
Definition sparse_config : PdfRag.yaml :=
  PdfRag.YDict {[ "unknown_option" := PdfRag.YInt 1 ]}.

Definition sparse_world : PdfRag.world :=
  PdfRag.World
    {[ "configs/model_config.yaml" := Ok sparse_config;
       "configs/rag_config.yaml" := Ok rag_config ]}
    ∅ ∅ [] PdfRag.initial_session [] [] [].

Definition ready_session (loaded : bool) : PdfRag.Session :=
  PdfRag.MkSession (Some tt) (Some tt) (Some tt) (Some tt) loaded [].

Definition ask (question : string) : PdfRag.widgets :=
  PdfRag.MkWidgets None false false question true.

End Sample.

(** ** More concrete collaborators *)

Module SampleMore.
Import Sample.

(** The operating system of the sample runs: the [.env] file names the
    embedding model, paths are joined with a slash, directories can always
    be created, and the user types trimmed lower-case lines. *)
#[global] Instance sample_system : PdfRagAppMain.System := {
  PdfRagAppMain.load_dotenv :=
    fun environ => environ ∪ {[ "EMBEDDING_MODEL" := "all-minilm" ]};
  PdfRagAppMain.path_join := fun a b => a +:+ "/" +:+ b;
  PdfRagAppMain.makedirs := fun _ d => Ok d;
  PdfRagAppMain.str_strip := fun s => s;
  PdfRagAppMain.str_lower := fun s => s
}.

(** The sample libraries with an Ollama server that answers 503. *)
Definition libraries_503 : PdfRagApp.Libraries := {|
  PdfRagApp.disk := files;
  PdfRagApp.vstore := faiss;
  PdfRagApp.PyPDFLoader_load := pdf_read;
  PdfRagApp.path_exists :=
    fun d path => bool_decide (is_Some (saved_stores d !! path));
  PdfRagApp.glob_pdf := fun d _ => fst <$> map_to_list (pdf_files d);
  PdfRagApp.path_name := fun path => path;
  PdfRagApp.FAISS_load_local := faiss_load;
  PdfRagApp.FAISS_from_documents :=
    fun docs e => Ok (Faiss docs (PdfRagApp.emb_model e) e);
  PdfRagApp.FAISS_save_local := faiss_save;
  PdfRagApp.similarity_search :=
    fun v _ k => Ok (take (Z.to_nat k) (faiss_docs v));
  PdfRagApp.chain_call :=
    fun _ v k _ =>
      Ok (PdfRagApp.ChainOut "I don't have enough information"
            (Some (take (Z.to_nat k) (faiss_docs v))));
  PdfRagApp.http_get_status := fun _ => Ok 503
|}.

(** The sample libraries on a disk on which nothing can be saved. *)
Definition libraries_read_only : PdfRagApp.Libraries := {|
  PdfRagApp.disk := files;
  PdfRagApp.vstore := faiss;
  PdfRagApp.PyPDFLoader_load := pdf_read;
  PdfRagApp.path_exists :=
    fun d path => bool_decide (is_Some (saved_stores d !! path));
  PdfRagApp.glob_pdf := fun d _ => fst <$> map_to_list (pdf_files d);
  PdfRagApp.path_name := fun path => path;
  PdfRagApp.FAISS_load_local := faiss_load;
  PdfRagApp.FAISS_from_documents :=
    fun docs e => Ok (Faiss docs (PdfRagApp.emb_model e) e);
  PdfRagApp.FAISS_save_local :=
    fun _ path _ =>
      Raised (Exn OtherError ("Permission denied: " +:+ path));
  PdfRagApp.similarity_search :=
    fun v _ k => Ok (take (Z.to_nat k) (faiss_docs v));
  PdfRagApp.chain_call :=
    fun _ v k _ =>
      Ok (PdfRagApp.ChainOut "I don't have enough information"
            (Some (take (Z.to_nat k) (faiss_docs v))));
  PdfRagApp.http_get_status := fun _ => Ok 200
|}.

(** A disk on which the path [data] exists, with one readable PDF of two
    pages and one unreadable PDF. *)
Definition mixed_disk : files :=
  Files {[ "data/corrupt.pdf" :=
             Raised (Exn OtherError "EOF marker not found");
           "data/paris.pdf" := Ok sample_docs ]}
        {[ "data" := ([], "") ]}.

Definition mixed_world : PdfRagApp.world := PdfRagApp.World mixed_disk [] [].

(** A system on which [build_vector_store] and [setup_qa_chain] have
    returned. *)
Definition ready_system : PdfRagApp.cli :=
  snd (PdfRagApp.setup_qa_chain
         (snd (PdfRagApp.build_vector_store sample_docs None
                 (PdfRagApp.Cli sample_world (sample_rag "nomic-embed-text"))))).

(** The sample world and a fresh system over the two variations of the
    libraries. *)
Definition world_503 : @PdfRagApp.world libraries_503 :=
  @PdfRagApp.World libraries_503 sample_disk [] [].

Definition system_read_only : @PdfRagApp.cli libraries_read_only :=
  @PdfRagApp.Cli libraries_read_only
    (@PdfRagApp.World libraries_read_only sample_disk [] [])
    (@PdfRagApp.MkRAG libraries_read_only
       "http://localhost:11434" "nomic-embed-text" "mistral"
       (PdfRagApp.Embeddings "http://localhost:11434" "nomic-embed-text")
       (PdfRagApp.Llm "http://localhost:11434" "mistral")
       None None).

(** What the user of the sample session types. *)
Definition typed_keys : list PdfRagAppMain.keyboard :=
  [PdfRagAppMain.Line "What is the capital of France?";
   PdfRagAppMain.Line "";
   PdfRagAppMain.Line "exit";
   PdfRagAppMain.Line "never read"].

(** A text processor over the sample splitter. *)
Definition sample_processor : PdfRag.TextProcessor :=
  PdfRag.MkTextProcessor 1000 200
    (SplitterCfg 1000 200 (Some PdfRag.default_separators)).

(** Characters as bytes, with the whitespace of ASCII. *)
Definition ascii_isspace (c : Ascii.ascii) : bool :=
  let n := Ascii.nat_of_ascii c in
  ((9 <=? n) && (n <=? 13))%nat || (n =? 32)%nat.

End SampleMore.

(** * Properties *)

(** Case analysis on a scrutinee that contains no other case analysis: the
    innermost library outcome or test the goal still depends on. *)
Ltac inner_case :=
  match goal with
  | |- context [match ?x with _ => _ end] =>
      lazymatch x with
      | context [match _ with _ => _ end] => fail
      | _ => destruct x eqn:?
      end
  end.

(** ** The command-line variant *)

Module PdfRagAppFacts.
Import PdfRagApp.

Section Facts.
Context `{Splitting : TextSplitter} `{Libs : Libraries}.

(** The constructor of [PDFLoader] is the splitter's constructor: it returns
    when that returns and raises what that raises. *)
Lemma PDFLoader_init_outcome (size overlap : Z) (w : world) :
  fst (PDFLoader_init size overlap w)
  = result_map (MkPDFLoader size overlap)
               (RecursiveCharacterTextSplitter size overlap None).
Proof.
  unfold PDFLoader_init, bind, lib, ret; simpl.
  destruct (RecursiveCharacterTextSplitter size overlap None); reflexivity.
Qed.

(** C1 (as amended): when the PDF reader raises on a path, [load_pdf] prints
    one line naming the path and the error and returns the empty list; the
    caller sees a normal return, and the splitter is not called. *)
Theorem load_pdf_swallows_reader_error
    (self : PDFLoader) (file_path : string) (w : world) (e : exn) :
  PyPDFLoader_load (w_disk w) file_path = Raised e ->
  is_Exception e = true ->
  load_pdf self file_path w
  = (Ok [],
     World (w_disk w)
           (w_stdout w
            ++ ["Error loading PDF " +:+ file_path +:+ ": " +:+ exn_str e])
           (w_calls w ++ [CallPdfLoad file_path])).
Proof.
  intros Hload Hexc.
  unfold load_pdf, try_except, bind, lib_read; simpl.
  rewrite Hload, Hexc.
  reflexivity.
Qed.

(** *** [_check_ollama_connection] *)

(** A status other than 200 raises a [ConnectionError] inside the [try]
    block; being an [Exception], it is caught by the last clause and wrapped
    once more. *)
Lemma check_ollama_connection_bad_status
    (base : string) (status : Z) (w : world) :
  http_get_status (base +:+ "/api/tags") = Ok status ->
  status <> 200 ->
  fst (check_ollama_connection base w)
  = Raised (Exn ConnectionError
              ("Error connecting to Ollama: Ollama returned status code "
               +:+ pretty status)).
Proof.
  intros Hget Hne.
  unfold check_ollama_connection, try_except, bind, lib, raise; simpl.
  rewrite Hget; simpl.
  destruct (Z.eqb_spec status 200) as [->|_]; [congruence|]. reflexivity.
Qed.

(** *** [build_vector_store] *)

(** What the loading branch does, step by step. *)
Lemma build_vector_store_existing
    (documents : list Document) (p : string) (s : cli) :
  truthy_str p = true ->
  path_exists (w_disk (cli_world s)) p = true ->
  build_vector_store documents (Some p) s
  = let w :=
      called (CallLoadLocal p (emb_model (embeddings (cli_self s))))
        (printed ["Building vector store from documents...";
                  "Loading existing vector store from " +:+ p]
                 (cli_world s)) in
    match FAISS_load_local (w_disk (cli_world s)) p (embeddings (cli_self s)) with
    | Ok store => (Ok tt, Cli w (set_vector_store (Some store) (cli_self s)))
    | Raised e => (Raised e, Cli w (cli_self s))
    end.
Proof.
  intros Hp Hex.
  unfold build_vector_store, bind, in_world, self_get, self_set, gets, modify,
    print, lib_read, called, printed; simpl.
  rewrite Hp; simpl. rewrite Hex; simpl.
  rewrite <- app_assoc; simpl.
  destruct (FAISS_load_local _ _ _); reflexivity.
Qed.

(** What the building branch does when there is nothing to build from. *)
Lemma build_vector_store_nothing (path : option string) (s : cli) :
  uses_saved_index path s = false ->
  build_vector_store [] path s
  = (Raised (Exn ValueError "No documents provided to build vector store"),
     Cli (printed ["Building vector store from documents..."] (cli_world s))
         (cli_self s)).
Proof.
  intros Hno.
  unfold build_vector_store, bind, in_world, self_get, self_set, gets, modify,
    print, raise, ret, printed; simpl.
  destruct path as [p|]; simpl in *; [|reflexivity].
  destruct (truthy_str p); simpl in *; [|reflexivity].
  rewrite Hno; reflexivity.
Qed.

(** [build_vector_store] never assigns [qa_chain]. *)
Lemma build_vector_store_qa_chain
    (documents : list Document) (path : option string) (s : cli) :
  qa_chain (cli_self (snd (build_vector_store documents path s)))
  = qa_chain (cli_self s).
Proof.
  unfold build_vector_store, bind, in_world, self_get, self_set, gets, modify,
    print, raise, ret, lib, lib_read, lib_write; simpl.
  repeat (inner_case; simpl; try reflexivity).
Qed.

(** C10: with a path that is given and exists, [build_vector_store] prints
    two lines, calls [FAISS.load_local] and nothing else, and installs what
    that returns; the outcome is the same for every [documents] list, so the
    list is neither embedded nor inserted.  With no usable path and an empty
    list it raises [ValueError] after its first print, calls no library and
    leaves the system as it was. *)
Theorem build_vector_store_load_or_refuse
    (documents : list Document) (path : option string) (s : cli) :
  (forall p,
      path = Some p -> p <> "" ->
      path_exists (w_disk (cli_world s)) p = true ->
      build_vector_store documents path s = build_vector_store [] path s
      /\ w_calls (cli_world (snd (build_vector_store documents path s)))
         = w_calls (cli_world s)
           ++ [CallLoadLocal p (emb_model (embeddings (cli_self s)))]
      /\ vector_store (cli_self (snd (build_vector_store documents path s)))
         = match FAISS_load_local (w_disk (cli_world s)) p
                   (embeddings (cli_self s)) with
           | Ok store => Some store
           | Raised _ => vector_store (cli_self s)
           end)
  /\ (uses_saved_index path s = false ->
      documents = [] ->
      fst (build_vector_store documents path s)
      = Raised (Exn ValueError "No documents provided to build vector store")
      /\ cli_self (snd (build_vector_store documents path s)) = cli_self s
      /\ w_calls (cli_world (snd (build_vector_store documents path s)))
         = w_calls (cli_world s)
      /\ w_disk (cli_world (snd (build_vector_store documents path s)))
         = w_disk (cli_world s)).
Proof.
  split.
  - intros p -> Hne Hex.
    assert (Hp : truthy_str p = true) by (destruct p; [congruence | reflexivity]).
    rewrite !build_vector_store_existing by assumption.
    destruct (FAISS_load_local _ _ _); simpl; auto.
  - intros Hno ->.
    rewrite build_vector_store_nothing by assumption.
    simpl; auto.
Qed.

(** C8 (as amended): when the path exists, the outcome of
    [build_vector_store] is the outcome of [FAISS.load_local] on that path and
    the configured embedding object: it returns when the library returns and
    raises the library's exception when the library raises.  The repository
    compares no model names. *)
Theorem build_vector_store_defers_to_load_local
    (documents : list Document) (p : string) (s : cli) :
  p <> "" ->
  path_exists (w_disk (cli_world s)) p = true ->
  fst (build_vector_store documents (Some p) s)
  = result_map (fun _ => tt)
      (FAISS_load_local (w_disk (cli_world s)) p (embeddings (cli_self s))).
Proof.
  intros Hne Hex.
  assert (Hp : truthy_str p = true) by (destruct p; [congruence | reflexivity]).
  rewrite build_vector_store_existing by assumption.
  destruct (FAISS_load_local _ _ _); reflexivity.
Qed.

(** *** The guard of [answer_question] *)

Lemma RAGSystem_init_unloaded (base emb_name llm_name : string)
    (w w' : world) (r : RAGSystem) :
  RAGSystem_init base emb_name llm_name w = (Ok r, w') ->
  unloaded (Cli w' r).
Proof.
  unfold RAGSystem_init, bind, ret.
  destruct (check_ollama_connection base w) as [[[]|e] w1]; intros Heq;
    inversion Heq; subst; split; reflexivity.
Qed.

Lemma setup_qa_chain_unloaded (s : cli) :
  vector_store (cli_self s) = None ->
  setup_qa_chain s
  = (Raised (Exn ValueError
               "Vector store not initialized. Call build_vector_store first."),
     s).
Proof.
  intros Hv. unfold setup_qa_chain, bind, self_get, gets, raise; simpl.
  rewrite Hv. reflexivity.
Qed.

Lemma answer_question_no_chain (question : string) (s : cli) :
  qa_chain (cli_self s) = None ->
  answer_question question s
  = (Raised (Exn ValueError "QA chain not setup. Call setup_qa_chain first."),
     s).
Proof.
  intros Hc. unfold answer_question, bind, self_get, gets, raise; simpl.
  rewrite Hc. reflexivity.
Qed.

Lemma get_relevant_documents_unloaded (question : string) (k : Z) (s : cli) :
  vector_store (cli_self s) = None ->
  get_relevant_documents question k s
  = (Raised (Exn ValueError "Vector store not initialized"), s).
Proof.
  intros Hv. unfold get_relevant_documents, bind, self_get, gets, raise; simpl.
  rewrite Hv. reflexivity.
Qed.

(** [build_vector_store] assigns [vector_store] only when it obtains an
    index. *)
Lemma build_vector_store_no_index
    (documents : list Document) (path : option string) (s : cli) :
  obtains_index documents path s = false ->
  vector_store (cli_self (snd (build_vector_store documents path s)))
  = vector_store (cli_self s).
Proof.
  unfold obtains_index, uses_saved_index.
  unfold build_vector_store, bind, in_world, self_get, self_set, gets, modify,
    print, raise, ret, lib, lib_read, lib_write; simpl.
  destruct path as [p|]; simpl.
  - destruct (truthy_str p); simpl;
      [destruct (path_exists (w_disk (cli_world s)) p); simpl|].
    + destruct (FAISS_load_local _ _ _); simpl; [discriminate | reflexivity].
    + destruct documents; simpl; [reflexivity|].
      destruct (FAISS_from_documents _ _); simpl; [discriminate | reflexivity].
    + destruct documents; simpl; [reflexivity|].
      destruct (FAISS_from_documents _ _); simpl; [discriminate | reflexivity].
  - destruct documents; simpl; [reflexivity|].
    destruct (FAISS_from_documents _ _); simpl; [discriminate | reflexivity].
Qed.

(** Method calls that are not a successful ingest keep the system unloaded. *)
Lemma invoke_unloaded (m : method) (s : cli) :
  unloaded s ->
  is_load m s = false ->
  unloaded (snd (invoke m s)).
Proof.
  intros [Hv Hc] Hload.
  destruct m as [docs path| |q|q k]; simpl in *.
  - pose proof (build_vector_store_no_index docs path s Hload) as Hs.
    pose proof (build_vector_store_qa_chain docs path s) as Hq.
    destruct (build_vector_store docs path s) as [r s']; simpl in *.
    split; congruence.
  - rewrite setup_qa_chain_unloaded by assumption. split; assumption.
  - rewrite answer_question_no_chain by assumption. split; assumption.
  - rewrite get_relevant_documents_unloaded by assumption. split; assumption.
Qed.

Lemma reach_unloaded_keeps_unloaded (s0 s : cli) :
  unloaded s0 -> reach_unloaded s0 s -> unloaded s.
Proof.
  intros Hstart Hreach.
  induction Hreach as [|s m _ IH Hload]; [assumption|].
  apply invoke_unloaded; assumption.
Qed.

(** Before any successful ingest, [answer_question] raises its [ValueError]
    and changes nothing: the chain, and with it retrieval, is not called. *)
Lemma answer_question_before_load
    (base emb_name llm_name question : string) (w w' : world)
    (r : RAGSystem) (s : cli) :
  RAGSystem_init base emb_name llm_name w = (Ok r, w') ->
  reach_unloaded (Cli w' r) s ->
  answer_question question s
  = (Raised (Exn ValueError "QA chain not setup. Call setup_qa_chain first."),
     s).
Proof.
  intros Hinit Hreach.
  apply answer_question_no_chain.
  eapply reach_unloaded_keeps_unloaded; [|exact Hreach].
  eapply RAGSystem_init_unloaded; exact Hinit.
Qed.

End Facts.

(** C1, witness: the unreadable file of the sample disk. *)
Lemma load_pdf_swallows_reader_error_witness :
  load_pdf Sample.sample_loader "data/corrupt.pdf" Sample.sample_world
  = (Ok [],
     World Sample.sample_disk
           ["Error loading PDF data/corrupt.pdf: EOF marker not found"]
           [CallPdfLoad "data/corrupt.pdf"]).
Proof.
  apply (load_pdf_swallows_reader_error
           Sample.sample_loader "data/corrupt.pdf" Sample.sample_world
           (Exn OtherError "EOF marker not found")); reflexivity.
Defined.

(** C1, counterexample: extraction of a corrupt file fails, and [load_pdf]
    returns normally with an empty chunk list. *)
Lemma load_pdf_returns_empty_on_corrupt_file :
  PyPDFLoader_load Sample.sample_disk "data/corrupt.pdf"
  = Raised (Exn OtherError "EOF marker not found")
  /\ fst (load_pdf Sample.sample_loader "data/corrupt.pdf" Sample.sample_world)
     = Ok [].
Proof. split; reflexivity. Qed.

(** C10, witness: on the disk where an index was saved, a second system is
    given the same path and two documents; a third call has no path and no
    documents. *)
Lemma build_vector_store_load_or_refuse_witness :
  let s := Sample.system_after_A "A" in
  (build_vector_store Sample.sample_docs (Some Sample.index_path) s
   = build_vector_store [] (Some Sample.index_path) s
   /\ w_calls (cli_world
                 (snd (build_vector_store Sample.sample_docs
                         (Some Sample.index_path) s)))
      = [CallLoadLocal Sample.index_path "A"])
  /\ fst (build_vector_store [] None s)
     = Raised (Exn ValueError "No documents provided to build vector store").
Proof.
  intros s. split.
  - destruct (build_vector_store_load_or_refuse
                Sample.sample_docs (Some Sample.index_path) s) as [Hload _].
    destruct (Hload Sample.index_path) as (Hsame & Hcalls & _);
      [reflexivity | discriminate | reflexivity |].
    split; [exact Hsame | exact Hcalls].
  - destruct (build_vector_store_load_or_refuse [] None s) as [_ Hrefuse].
    destruct Hrefuse as (Hraise & _); [reflexivity | reflexivity |].
    exact Hraise.
Defined.

(** C8, witness: a system configured for model ["B"] on the disk where a
    system configured for model ["A"] saved its index. *)
Lemma build_vector_store_defers_to_load_local_witness :
  fst (build_vector_store [] (Some Sample.index_path)
         (Sample.system_after_A "B"))
  = result_map (fun _ => tt)
      (Sample.faiss_load Sample.disk_saved_by_A Sample.index_path
         (Embeddings "http://localhost:11434" "B")).
Proof.
  apply (build_vector_store_defers_to_load_local []
           Sample.index_path (Sample.system_after_A "B"));
    [discriminate | reflexivity].
Defined.

(** C8, counterexample: the index at [index_path] holds vectors of model
    ["A"]; a system configured for model ["B"] is asked to build from that
    path; the call returns, and the system now queries the vectors of ["A"]
    with the embeddings of ["B"]. *)
Lemma snapshot_of_other_model_is_loaded :
  let s := Sample.system_after_A "B" in
  Sample.saved_stores Sample.disk_saved_by_A !! Sample.index_path
  = Some (Sample.sample_docs, "A")
  /\ emb_model (embeddings (cli_self s)) = "B"
  /\ fst (build_vector_store [] (Some Sample.index_path) s) = Ok tt
  /\ vector_store
       (cli_self (snd (build_vector_store [] (Some Sample.index_path) s)))
     = Some (Sample.Faiss Sample.sample_docs "A"
               (Embeddings "http://localhost:11434" "B")).
Proof. intros s. repeat split; reflexivity. Qed.

End PdfRagAppFacts.

(** ** The Streamlit variant *)

Module PdfRagFacts.
Import PdfRag.

Section Facts.
Context `{Splitting : TextSplitter} `{Services : Core}.

(** *** Blocks that keep the session unloaded *)

Lemma preserves_ret {A} (P : world -> Prop) (a : A) : preserves P (ret a).
Proof. intros w Hw; exact Hw. Qed.

Lemma preserves_raise {A} (P : world -> Prop) (e : exn) :
  preserves P (@raise world A e).
Proof. intros w Hw; exact Hw. Qed.

Lemma preserves_gets {A} (P : world -> Prop) (f : world -> A) :
  preserves P (gets f).
Proof. intros w Hw; exact Hw. Qed.

Lemma preserves_of_result {A} (P : world -> Prop) (r : result A) :
  preserves P (of_result r).
Proof. intros w Hw; exact Hw. Qed.

Lemma preserves_bind {A B} (P : world -> Prop)
    (m : prog world A) (k : A -> prog world B) :
  preserves P m -> (forall a, preserves P (k a)) -> preserves P (bind m k).
Proof.
  intros Hm Hk w Hw. unfold bind.
  specialize (Hm w Hw).
  destruct (m w) as [[a|e] w']; simpl in *; [apply Hk|]; assumption.
Qed.

Lemma preserves_try_except {A} (P : world -> Prop)
    (body : prog world A) (handler : exn -> prog world A) :
  preserves P body -> (forall e, preserves P (handler e)) ->
  preserves P (try_except body handler).
Proof.
  intros Hb Hh w Hw. unfold try_except.
  specialize (Hb w Hw).
  destruct (body w) as [[a|e] w']; simpl in *; [assumption|].
  destruct (is_Exception e); [apply Hh|]; assumption.
Qed.

Lemma preserves_session {A} (P : world -> Prop) (f : Session -> A) :
  preserves P (session f).
Proof. intros w Hw; exact Hw. Qed.

Lemma preserves_attr {A} (P : world -> Prop) (o : option A) (name : string) :
  preserves P (attr o name).
Proof. intros w Hw; destruct o; exact Hw. Qed.

Lemma unloaded_st (e : ui) : preserves unloaded (st e).
Proof. intros w Hw; exact Hw. Qed.

Lemma unloaded_logger (l : level) (msg : string) :
  preserves unloaded (logger l msg).
Proof. intros w Hw; exact Hw. Qed.

Lemma unloaded_write_raw (path content : string) :
  preserves unloaded (write_raw path content).
Proof. intros w Hw; exact Hw. Qed.

Lemma unloaded_lib {A} (c : call) (r : result A) : preserves unloaded (lib c r).
Proof. intros w Hw; exact Hw. Qed.

Lemma unloaded_read_pdf (path : string) : preserves unloaded (read_pdf path).
Proof. intros w Hw; exact Hw. Qed.

Lemma unloaded_lib_db {A} (c : call) (f : db -> result A) :
  preserves unloaded (lib_db c f).
Proof. intros w Hw; exact Hw. Qed.

Lemma unloaded_lib_db_update {A} (c : call) (f : db -> result (A * db)) :
  preserves unloaded (lib_db_update c f).
Proof.
  intros w Hw. unfold lib_db_update.
  destruct (f (w_db w)) as [[a d]|e]; exact Hw.
Qed.

Lemma unloaded_set_session (f : Session -> Session) :
  (forall s, documents_loaded s = false -> documents_loaded (f s) = false) ->
  preserves unloaded (set_session f).
Proof. intros Hf w Hw. apply Hf, Hw. Qed.

(** One step of a compositional proof that a block keeps the session
    unloaded. *)
Ltac unloaded_step :=
  lazymatch goal with
  | |- preserves _ (bind _ _) => apply preserves_bind; [|intros ?]
  | |- preserves _ (try_except _ _) => apply preserves_try_except; [|intros ?]
  | |- preserves _ (ret _) => apply preserves_ret
  | |- preserves _ (raise _) => apply preserves_raise
  | |- preserves _ (gets _) => apply preserves_gets
  | |- preserves _ (of_result _) => apply preserves_of_result
  | |- preserves _ (session _) => apply preserves_session
  | |- preserves _ (attr _ _) => apply preserves_attr
  | |- preserves _ (st _) => apply unloaded_st
  | |- preserves _ (logger _ _) => apply unloaded_logger
  | |- preserves _ (write_raw _ _) => apply unloaded_write_raw
  | |- preserves _ (lib _ _) => apply unloaded_lib
  | |- preserves _ (read_pdf _) => apply unloaded_read_pdf
  | |- preserves _ (lib_db _ _) => apply unloaded_lib_db
  | |- preserves _ (lib_db_update _ _) => apply unloaded_lib_db_update
  | |- preserves _ (set_session _) =>
      apply unloaded_set_session; intros ? ?; assumption
  | |- preserves _ (match ?x with _ => _ end) => destruct x
  end.

Lemma unloaded_load_config (self : ConfigLoader) (config_file : string) :
  preserves unloaded (load_config self config_file).
Proof. unfold load_config; cbv zeta. repeat unloaded_step. Qed.

Lemma unloaded_TextProcessor_init (size overlap : Z)
    (separators : option (list string)) :
  preserves unloaded (TextProcessor_init size overlap separators).
Proof. unfold TextProcessor_init; cbv zeta. repeat unloaded_step. Qed.

Lemma unloaded_split_text (self : TextProcessor) (text : string) :
  preserves unloaded (split_text self text).
Proof. unfold split_text. repeat unloaded_step. Qed.

Lemma unloaded_initialize_components :
  preserves unloaded initialize_components.
Proof.
  unfold initialize_components, initialize_components_body, ConfigLoader_init;
    cbv zeta.
  repeat first [apply unloaded_load_config | unloaded_step].
Qed.

Lemma unloaded_startup : preserves unloaded startup.
Proof.
  unfold startup.
  repeat first [apply unloaded_initialize_components | unloaded_step].
Qed.

Lemma unloaded_stats_section (ws : widgets) :
  preserves unloaded (stats_section ws).
Proof.
  unfold stats_section.
  repeat first
    [ apply unloaded_set_session; intros; reflexivity
    | unloaded_step ].
Qed.

(** With no document loaded, the content area shows the prompt to upload one
    and does nothing else. *)
Lemma content_unloaded (ws : widgets) (w : world) :
  unloaded w ->
  content ws w = st (UiInfo upload_prompt) w.
Proof.
  intros Hw. unfold content, bind, session, gets; simpl.
  rewrite Hw. reflexivity.
Qed.

(** *** [process_pdf] sets the flag only when it returns [True] *)

Lemma true_or_preserves_bind {A} (P : world -> Prop)
    (m : prog world A) (k : A -> prog world bool) :
  preserves P m -> (forall a, true_or_preserves P (k a)) ->
  true_or_preserves P (bind m k).
Proof.
  intros Hm Hk w Hw. unfold bind.
  specialize (Hm w Hw).
  destruct (m w) as [[a|e] w']; simpl in *; [apply Hk; assumption|].
  right; assumption.
Qed.

Lemma true_or_preserves_try_except (P : world -> Prop)
    (body : prog world bool) (handler : exn -> prog world bool) :
  true_or_preserves P body -> (forall e, preserves P (handler e)) ->
  true_or_preserves P (try_except body handler).
Proof.
  intros Hb Hh w Hw. unfold try_except.
  specialize (Hb w Hw).
  destruct (body w) as [[b|e] w']; simpl in *; [assumption|].
  destruct Hb as [Hb|Hb]; [discriminate|].
  right. destruct (is_Exception e); [apply Hh|]; assumption.
Qed.

Lemma true_or_preserves_return_true (P : world -> Prop) (m : prog world unit) :
  (forall w, exists w', m w = (Ok tt, w')) ->
  true_or_preserves P (m;; ret true).
Proof.
  intros Hm w _. left. unfold bind.
  destruct (Hm w) as [w' ->]. reflexivity.
Qed.

Lemma process_pdf_body_flag (f : Upload) :
  true_or_preserves unloaded (process_pdf_body f).
Proof.
  unfold process_pdf_body, ConfigLoader_init; cbv zeta.
  repeat first
    [ apply true_or_preserves_return_true; intros w; eexists; reflexivity
    | apply true_or_preserves_bind;
      [ repeat first
          [ apply unloaded_load_config
          | apply unloaded_TextProcessor_init
          | apply unloaded_split_text
          | unloaded_step ]
      | intros ? ] ].
Qed.

Lemma process_pdf_flag (f : Upload) :
  true_or_preserves unloaded (process_pdf f).
Proof.
  unfold process_pdf.
  apply true_or_preserves_try_except; [apply process_pdf_body_flag|].
  intros e. repeat unloaded_step.
Qed.

Lemma unloaded_content (ws : widgets) : preserves unloaded (content ws).
Proof.
  intros w Hw. rewrite content_unloaded by assumption. exact Hw.
Qed.

(** A step that loads no document keeps the session unloaded. *)
Lemma perform_unloaded (a : action) (w : world) :
  unloaded w ->
  fst (perform a w) = false ->
  unloaded (snd (perform a w)).
Proof.
  intros Hw Hno.
  destruct a as [|e|f|ws|ws]; simpl in *.
  - apply unloaded_startup, Hw.
  - exact Hw.
  - pose proof (process_pdf_flag f w Hw) as Hf.
    destruct (process_pdf f w) as [[b|e] w']; simpl in *.
    + destruct Hf as [Hf|Hf]; [congruence | assumption].
    + destruct Hf as [Hf|Hf]; [discriminate | assumption].
  - apply unloaded_stats_section, Hw.
  - apply unloaded_content, Hw.
Qed.

Lemma reach_unloaded_keeps_flag (w0 w : world) :
  unloaded w0 -> reach_unloaded w0 w -> unloaded w.
Proof.
  intros Hstart Hreach.
  induction Hreach as [|w a _ IH Hno]; [assumption|].
  apply perform_unloaded; assumption.
Qed.

Lemma fresh_unloaded (w : world) : fresh w -> unloaded w.
Proof. unfold fresh, unloaded. intros ->. reflexivity. Qed.

(** Before any document is loaded, asking a question shows the prompt to
    upload one; nothing is retrieved or generated. *)
Lemma content_before_load (ws : widgets) (w0 w : world) :
  fresh w0 ->
  reach_unloaded w0 w ->
  content ws w
  = (Ok tt,
     World (w_yaml w) (w_raw w) (w_environ w) (w_db w) (w_session w)
           (w_ui w ++ [UiInfo upload_prompt]) (w_log w) (w_calls w)).
Proof.
  intros Hfresh Hreach.
  rewrite content_unloaded; [reflexivity|].
  eapply reach_unloaded_keeps_flag; [|exact Hreach].
  apply fresh_unloaded, Hfresh.
Qed.

Lemma reach_unloaded_bind {A B} (w0 w : world)
    (m : prog world A) (k : A -> prog world B) :
  reach_unloaded w0 (snd (m w)) ->
  (forall a w', m w = (Ok a, w') -> reach_unloaded w0 (snd (k a w'))) ->
  reach_unloaded w0 (snd (bind m k w)).
Proof.
  intros Hm Hk. unfold bind.
  destruct (m w) as [[a|e] w']; simpl in *; [apply Hk; reflexivity | exact Hm].
Qed.

(** A whole run of [main] that loads no document is a sequence of such
    steps. *)
Lemma main_reach_unloaded (ws : widgets) (w0 w : world) :
  reach_unloaded w0 w ->
  run_loads ws w = false ->
  reach_unloaded w0 (snd (main ws w)).
Proof.
  intros Hreach Hno.
  pose proof (ru_step w0 w Startup Hreach eq_refl) as H1; cbn [perform snd] in H1.
  unfold main. apply reach_unloaded_bind; [exact H1|].
  intros [] w1 Hstart. rewrite Hstart in H1; cbn [snd] in H1.
  assert (H3 : reach_unloaded w0 (snd (upload_section ws w1))).
  { pose proof (ru_step w0 w1 (Show (UiHeader "📄 Upload PDF")) H1 eq_refl)
      as H2; cbn [perform snd] in H2.
    unfold upload_section. apply reach_unloaded_bind; [exact H2|].
    intros [] w2 Hshow.
    unfold run_loads, bind in Hno. rewrite Hstart, Hshow in Hno.
    rewrite Hshow in H2; cbn [snd] in H2.
    destruct (requested ws) as [f|]; [|exact H2].
    pose proof (ru_step w0 w2 (ProcessPdf f) H2 Hno) as Hp; cbn [perform] in Hp.
    assert (Hp' : reach_unloaded w0 (snd (process_pdf f w2)))
      by (destruct (process_pdf f w2) as [[b|e] w3]; exact Hp).
    apply reach_unloaded_bind; [exact Hp'|].
    intros b w3 Hproc. rewrite Hproc in Hp'. exact Hp'. }
  apply reach_unloaded_bind; [exact H3|].
  intros [] w3 Hup. rewrite Hup in H3; cbn [snd] in H3.
  pose proof (ru_step w0 w3 (Stats ws) H3 eq_refl) as H4; cbn [perform snd] in H4.
  apply reach_unloaded_bind; [exact H4|].
  intros [] w4 Hstats. rewrite Hstats in H4; cbn [snd] in H4.
  exact (ru_step w0 w4 (Content ws) H4 eq_refl).
Qed.

(** *** [answer_question] *)

(** C3: when the retriever returns an empty list for the question,
    [answer_question] returns the fixed "couldn't find any relevant
    information" string; the only call it makes is the retrieval, so neither
    the prompt template nor the generation backend is invoked, and the chat
    history is left alone. *)
Theorem answer_question_empty_retrieval
    (question : string) (w : world) (r : retriever_t) :
  retriever (w_session w) = Some r ->
  retrieve r (w_db w) question = Ok [] ->
  answer_question question w
  = (Ok (AnswerStr no_information), record_call (CallRetrieve question) w).
Proof.
  intros Hr Hempty.
  unfold answer_question, answer_question_body, try_except, bind, session,
    gets, attr, lib_db; simpl.
  rewrite Hr; simpl. rewrite Hempty; simpl.
  reflexivity.
Qed.

(** *** [ConfigLoader] *)

Lemma lookup_path_replace_env_vars
    (environ : gmap string string) (path : list string) (config : yaml) :
  is_Some (lookup_path (replace_env_vars environ config) path)
  <-> is_Some (lookup_path config path).
Proof.
  revert config. induction path as [|key rest IH]; intros config.
  - simpl. split; intros _; eexists; reflexivity.
  - destruct config as [| | | |s|l|d]; simpl; try reflexivity.
    + destruct (startswith "${" s && endswith "}" s); reflexivity.
    + rewrite lookup_fmap.
      destruct (d !! key) as [v|]; simpl; [apply IH | reflexivity].
Qed.

(** C9 (as amended): [load_config] checks no key.  It raises
    [FileNotFoundError] when the file is missing and raises what
    [yaml.safe_load] raises when the file cannot be parsed; on every other
    file it returns the parsed value with the environment variables
    substituted, in which a path of keys is present exactly when it is
    present in the file. *)
Theorem load_config_checks_no_keys
    (self : ConfigLoader) (config_file : string) (w : world) :
  fst (load_config self config_file w)
  = match w_yaml w !! joinpath (config_dir self) config_file with
    | None =>
        Raised (Exn FileNotFoundError
                  ("Configuration file not found: "
                   +:+ joinpath (config_dir self) config_file))
    | Some (Raised e) => Raised e
    | Some (Ok config) =>
        Ok (replace_env_vars (w_environ w) config,
            MkConfigLoader (config_dir self)
              (<[config_file := replace_env_vars (w_environ w) config]>
                 (configs self)))
    end
  /\ forall config path,
      is_Some (lookup_path (replace_env_vars (w_environ w) config) path)
      <-> is_Some (lookup_path config path).
Proof.
  split; [|intros; apply lookup_path_replace_env_vars].
  unfold load_config, try_except, bind, gets, of_result, raise, ret, logger,
    modify; cbv zeta; simpl.
  destruct (w_yaml w !! joinpath (config_dir self) config_file) as [[c|e]|];
    simpl; try reflexivity.
  destruct (is_Exception e); reflexivity.
Qed.

(** *** [TextProcessor] *)

(** The constructor of [TextProcessor] is the splitter's constructor, given
    the default separators when none are passed. *)
Lemma TextProcessor_init_outcome
    (size overlap : Z) (separators : option (list string)) (w : world) :
  fst (TextProcessor_init size overlap separators w)
  = result_map (MkTextProcessor size overlap)
      (RecursiveCharacterTextSplitter size overlap
         (Some (default default_separators separators))).
Proof.
  unfold TextProcessor_init, bind, lib, logger, modify, ret; simpl.
  destruct separators; simpl;
    destruct (RecursiveCharacterTextSplitter _ _ _); reflexivity.
Qed.

(** [split_text] hands the text to the splitter and passes on what comes
    back, chunks or exception. *)
Lemma split_text_outcome (self : TextProcessor) (text : string) (w : world) :
  fst (split_text self text w) = split_text_of (text_splitter self) text.
Proof.
  unfold split_text, try_except, bind, lib, logger, modify, ret, raise; simpl.
  destruct (split_text_of (text_splitter self) text) as [chunks|e]; simpl;
    [reflexivity|].
  destruct (is_Exception e); reflexivity.
Qed.

End Facts.

(** *** Runs on the sample session *)

Example joinpath_relative :
  joinpath "configs" "rag_config.yaml" = "configs/rag_config.yaml".
Proof. reflexivity. Qed.

Example replace_env_vars_set :
  lookup_path
    (replace_env_vars {[ "LLM_MODEL" := "openai/gpt-4o-mini" ]}
       Sample.model_config)
    ["llm"; "model_name"]
  = Some (YStr "openai/gpt-4o-mini").
Proof. vm_compute. reflexivity. Qed.

Example replace_env_vars_unset :
  replace_env_vars ∅ (YList [YStr "${HOME}"; YStr "${"; YStr "$HOME}"])
  = YList [YStr "${HOME}"; YStr "${"; YStr "$HOME}"].
Proof. vm_compute. reflexivity. Qed.

(** With the [embeddings] and [llm] options present and no [openrouter]
    section, the components are not initialised: the section is read with
    [model_config['openrouter']]. *)
Example openrouter_section_is_read :
  fst (initialize_components Sample.world_13) = Ok false
  /\ w_ui (snd (initialize_components Sample.world_13))
     = [UiError "Error initializing components: 'openrouter'"].
Proof. split; vm_compute; reflexivity. Qed.

(** A first run processes an uploaded file; a second run asks a question.
    When a stored text matches, the answer is shown; when nothing is
    retrieved, [answer_question] returns its bare string and the unpacking in
    [main] raises. *)
Example two_runs :
  let upload := MkUpload "paris.pdf" "Paris is the capital of France." in
  let w1 :=
    snd (main (MkWidgets (Some upload) true false "" false)
              (Sample.web_world [] initial_session)) in
  documents_loaded (w_session w1) = true
  /\ w_db w1 = ["Paris is the capital of France."]
  /\ fst (main (Sample.ask "Paris is the capital of France.") w1) = Ok tt
  /\ fst (main (Sample.ask "What is the tallest mountain?") w1)
     = Raised (Exn ValueError "too many values to unpack (expected 2)").
Proof. repeat split; vm_compute; reflexivity. Qed.

(** C3, witness: the collection holds one sentence and the question matches
    no stored text. *)
Lemma answer_question_empty_retrieval_witness :
  answer_question "What is the tallest mountain?"
    (Sample.web_world ["Paris is the capital of France."]
                      (Sample.ready_session true))
  = (Ok (AnswerStr no_information),
     record_call (CallRetrieve "What is the tallest mountain?")
       (Sample.web_world ["Paris is the capital of France."]
                         (Sample.ready_session true))).
Proof.
  apply (answer_question_empty_retrieval
           "What is the tallest mountain?"
           (Sample.web_world ["Paris is the capital of France."]
                             (Sample.ready_session true))
           tt); reflexivity.
Defined.

(** C9, counterexample: both files carry a key that no component reads, and
    one of them lacks every key that is read; [load_config] returns on both,
    and with the complete files [initialize_components] returns [True]. *)
Lemma unknown_and_missing_keys_are_loaded :
  lookup_path Sample.model_config ["unknown_option"] = Some (YInt 1)
  /\ fst (load_config (MkConfigLoader "configs" ∅) "model_config.yaml"
            (Sample.web_world [] initial_session))
     = Ok (replace_env_vars {[ "LLM_MODEL" := "openai/gpt-4o-mini" ]}
             Sample.model_config,
           MkConfigLoader "configs"
             {[ "model_config.yaml" :=
                  replace_env_vars {[ "LLM_MODEL" := "openai/gpt-4o-mini" ]}
                    Sample.model_config ]})
  /\ fst (initialize_components (Sample.web_world [] initial_session))
     = Ok true
  /\ lookup_path Sample.sparse_config ["embeddings"] = None
  /\ is_ok (fst (load_config (MkConfigLoader "configs" ∅) "model_config.yaml"
                   Sample.sparse_world))
     = true.
Proof. repeat split; vm_compute; reflexivity. Qed.

End PdfRagFacts.

(** ** Both variants *)

Section BothVariants.
Context `{Splitting : TextSplitter}
        `{Libs : PdfRagApp.Libraries} `{Services : PdfRag.Core}.

(** C2 (as amended): constructing a chunker, [PDFLoader] or [TextProcessor],
    has the outcome of the [RecursiveCharacterTextSplitter] constructor called
    with the same size and overlap: the object is returned when that returns,
    and its exception is raised when that raises.  The repository compares
    [chunk_overlap] with [chunk_size] nowhere. *)
Theorem chunker_construction_defers_to_splitter
    (size overlap : Z) (separators : option (list string))
    (w : PdfRagApp.world) (v : PdfRag.world) :
  fst (PdfRagApp.PDFLoader_init size overlap w)
  = result_map (PdfRagApp.MkPDFLoader size overlap)
      (RecursiveCharacterTextSplitter size overlap None)
  /\ fst (PdfRag.TextProcessor_init size overlap separators v)
     = result_map (PdfRag.MkTextProcessor size overlap)
         (RecursiveCharacterTextSplitter size overlap
            (Some (default PdfRag.default_separators separators))).
Proof.
  split.
  - apply PdfRagAppFacts.PDFLoader_init_outcome.
  - apply PdfRagFacts.TextProcessor_init_outcome.
Qed.

(** C4: in every state reached without a successful ingest, asking a
    question is refused before anything is retrieved.  Command line: from a
    freshly constructed [RAGSystem], after any method calls in none of which
    [build_vector_store] obtained an index, [answer_question] raises
    [ValueError("QA chain not setup. Call setup_qa_chain first.")] and the
    state, call log included, is unchanged.  Streamlit: from a fresh session,
    after any steps of the script in none of which [process_pdf] returned
    [True], the content area shows "Please upload and process a PDF to get
    started" and makes no call. *)
Theorem answer_question_refused_before_load
    (base emb_name llm_name question : string)
    (w w' : PdfRagApp.world) (r : PdfRagApp.RAGSystem) (s : PdfRagApp.cli)
    (ws : PdfRag.widgets) (v0 v : PdfRag.world) :
  PdfRagApp.RAGSystem_init base emb_name llm_name w = (Ok r, w') ->
  PdfRagApp.reach_unloaded (PdfRagApp.Cli w' r) s ->
  PdfRag.fresh v0 ->
  PdfRag.reach_unloaded v0 v ->
  PdfRagApp.answer_question question s
  = (Raised (Exn ValueError "QA chain not setup. Call setup_qa_chain first."),
     s)
  /\ PdfRag.content ws v
     = (Ok tt,
        PdfRag.World (PdfRag.w_yaml v) (PdfRag.w_raw v) (PdfRag.w_environ v)
          (PdfRag.w_db v) (PdfRag.w_session v)
          (PdfRag.w_ui v ++ [PdfRag.UiInfo PdfRag.upload_prompt])
          (PdfRag.w_log v) (PdfRag.w_calls v)).
Proof.
  intros Hinit Hcli Hfresh Hweb. split.
  - eapply PdfRagAppFacts.answer_question_before_load; eassumption.
  - eapply PdfRagFacts.content_before_load; eassumption.
Qed.

End BothVariants.

(** C2, counterexample: with a splitter whose constructor rejects only an
    overlap larger than the size, both chunkers are constructed with the
    overlap equal to the size. *)
Lemma equal_overlap_is_accepted :
  fst (PdfRagApp.PDFLoader_init 100 100 Sample.sample_world)
  = Ok (PdfRagApp.MkPDFLoader 100 100 (Sample.SplitterCfg 100 100 None))
  /\ fst (PdfRag.TextProcessor_init 100 100 None
            (Sample.web_world [] PdfRag.initial_session))
     = Ok (PdfRag.MkTextProcessor 100 100
             (Sample.SplitterCfg 100 100 (Some PdfRag.default_separators))).
Proof. split; reflexivity. Qed.

(** C4, witness.  Command line: a system is constructed, a build without
    path and documents fails, [setup_qa_chain] fails, a question is asked.
    Streamlit: the script starts with a configuration file in which the
    components find no key, so none is created; processing a PDF then fails
    for want of an embedding generator; a question is asked. *)
Lemma answer_question_refused_before_load_witness :
  let s :=
    snd (PdfRagApp.invoke PdfRagApp.SetupQaChain
           (snd (PdfRagApp.invoke (PdfRagApp.BuildVectorStore [] None)
                   Sample.fresh_system))) in
  let v :=
    snd (PdfRag.perform
           (PdfRag.ProcessPdf (PdfRag.MkUpload "paper.pdf" "%PDF-1.4"))
           (snd (PdfRag.perform PdfRag.Startup Sample.sparse_world))) in
  PdfRagApp.answer_question "What is the capital of France?" s
  = (Raised (Exn ValueError "QA chain not setup. Call setup_qa_chain first."),
     s)
  /\ PdfRag.content (Sample.ask "What is the capital of France?") v
     = (Ok tt,
        PdfRag.World (PdfRag.w_yaml v) (PdfRag.w_raw v) (PdfRag.w_environ v)
          (PdfRag.w_db v) (PdfRag.w_session v)
          (PdfRag.w_ui v ++ [PdfRag.UiInfo PdfRag.upload_prompt])
          (PdfRag.w_log v) (PdfRag.w_calls v)).
Proof.
  intros s v.
  apply (answer_question_refused_before_load
           "http://localhost:11434" "nomic-embed-text" "mistral"
           "What is the capital of France?"
           Sample.sample_world Sample.connected_world
           (Sample.sample_rag "nomic-embed-text") s
           (Sample.ask "What is the capital of France?")
           Sample.sparse_world v).
  - reflexivity.
  - apply PdfRagApp.ru_step; [apply PdfRagApp.ru_step|];
      [apply PdfRagApp.ru_init | reflexivity | reflexivity].
  - reflexivity.
  - apply PdfRag.ru_step; [apply PdfRag.ru_step|];
      [apply PdfRag.ru_init | reflexivity | vm_compute; reflexivity].
Defined.

(** ** More on the command-line variant *)

Module PdfRagAppMore.
Import PdfRagApp PdfRagAppMain.

Section Facts.
Context `{Splitting : TextSplitter} `{Libs : Libraries}.

(** *** [load_pdfs_from_directory] *)

Lemma load_pdf_chunks (self : PDFLoader) (path : string) (w : world) :
  file_catchable self (w_disk w) path = true ->
  fst (load_pdf self path w) = Ok (file_chunks self (w_disk w) path)
  /\ w_disk (snd (load_pdf self path w)) = w_disk w.
Proof.
  unfold file_catchable, file_chunks, catchable.
  unfold load_pdf, try_except, bind, lib_read, lib, print, modify, ret; simpl.
  destruct (PyPDFLoader_load (w_disk w) path) as [docs|e]; simpl.
  - destruct (split_documents_of (text_splitter self) docs) as [chunks|e];
      simpl; [auto|].
    intros ->. simpl. auto.
  - intros ->. simpl. auto.
Qed.

Lemma bind_ok {W A B} (m : prog W A) (k : A -> prog W B)
    (w w' : W) (a : A) :
  m w = (Ok a, w') -> bind m k w = k a w'.
Proof. intros Hm. unfold bind. rewrite Hm. reflexivity. Qed.

Lemma bind_raised {W A B} (m : prog W A) (k : A -> prog W B)
    (w w' : W) (e : exn) :
  m w = (Raised e, w') -> bind m k w = (Raised e, w').
Proof. intros Hm. unfold bind. rewrite Hm. reflexivity. Qed.

Lemma load_each_chunks (self : PDFLoader) (pdf_files : list string) :
  forall (all_chunks : list Document) (w : world),
    forallb (file_catchable self (w_disk w)) pdf_files = true ->
    fst (load_each self pdf_files all_chunks w)
    = Ok (all_chunks ++ flat_map (file_chunks self (w_disk w)) pdf_files)
    /\ w_disk (snd (load_each self pdf_files all_chunks w)) = w_disk w.
Proof.
  induction pdf_files as [|pdf_file rest IH]; intros all_chunks w Hall.
  - simpl. rewrite app_nil_r. auto.
  - simpl in Hall. apply andb_prop in Hall as [Hfile Hrest].
    cbn [load_each flat_map].
    erewrite bind_ok by reflexivity.
    set (w1 := World (w_disk w) _ (w_calls w)).
    destruct (load_pdf_chunks self pdf_file w1 Hfile) as [Hres Hdisk].
    destruct (load_pdf self pdf_file w1) as [r w2] eqn:Hload.
    simpl in Hres, Hdisk. subst r.
    erewrite bind_ok by exact Hload.
    specialize (IH (all_chunks ++ file_chunks self (w_disk w1) pdf_file) w2).
    rewrite Hdisk in IH. destruct (IH Hrest) as [IHres IHdisk].
    rewrite <- app_assoc in IHres. auto.
Qed.

(** The run of [load_pdfs_from_directory] when no file raises past
    [load_pdf]. *)
Lemma load_pdfs_from_directory_run
    (self : PDFLoader) (directory_path : string) (w : world) :
  forallb (file_catchable self (w_disk w))
          (glob_pdf (w_disk w) directory_path) = true ->
  exists w',
    load_pdfs_from_directory self directory_path w
    = (Ok (if path_exists (w_disk w) directory_path
           then flat_map (file_chunks self (w_disk w))
                         (glob_pdf (w_disk w) directory_path)
           else []), w')
    /\ w_disk w' = w_disk w.
Proof.
  intros Hall.
  unfold load_pdfs_from_directory.
  erewrite bind_ok by reflexivity.
  destruct (path_exists (w_disk w) directory_path); simpl; [|eauto].
  erewrite bind_ok by reflexivity.
  erewrite bind_ok by reflexivity.
  set (w1 := World (w_disk w) _ (w_calls w)).
  destruct (load_each_chunks self (glob_pdf (w_disk w) directory_path) [] w1 Hall)
    as [Hres Hdisk].
  destruct (load_each self _ [] w1) as [r w2] eqn:Hload.
  simpl in Hres, Hdisk. subst r.
  erewrite bind_ok by exact Hload.
  simpl. eauto.
Qed.

(** When reading and splitting fail only with [Exception]s,
    [load_pdfs_from_directory] returns: for a directory that exists, the
    chunks of its PDF files in the order of the listing, a file that cannot
    be read or split contributing none; for one that does not exist, the
    empty list.  The disk is left as it was. *)
Theorem load_pdfs_from_directory_chunks
    (self : PDFLoader) (directory_path : string) (w : world) :
  forallb (file_catchable self (w_disk w))
          (glob_pdf (w_disk w) directory_path) = true ->
  fst (load_pdfs_from_directory self directory_path w)
  = Ok (if path_exists (w_disk w) directory_path
        then flat_map (file_chunks self (w_disk w))
                      (glob_pdf (w_disk w) directory_path)
        else [])
  /\ w_disk (snd (load_pdfs_from_directory self directory_path w)) = w_disk w.
Proof.
  intros Hall.
  destruct (load_pdfs_from_directory_run self directory_path w Hall)
    as (w' & Hrun & Hdisk).
  rewrite Hrun. auto.
Qed.

(** *** [RAGSystem.__init__] *)

(** An [Exception] that leaves [RAGSystem.__init__] is a
    [ConnectionError]: whatever the request to the server raised or
    answered. *)
Theorem RAGSystem_init_raises_ConnectionError
    (base emb_name llm_name : string) (w : world) (e : exn) :
  fst (RAGSystem_init base emb_name llm_name w) = Raised e ->
  is_Exception e = true ->
  exn_cls e = ConnectionError.
Proof.
  unfold RAGSystem_init, check_ollama_connection, try_except, bind, lib, print,
    modify, raise, ret; simpl.
  destruct (http_get_status (base +:+ "/api/tags")) as [status|e0]; simpl.
  - destruct (status =? 200); simpl; intros Heq; inversion Heq; reflexivity.
  - destruct (is_Exception e0) eqn:He0; simpl.
    + destruct (exn_cls e0); simpl; intros Heq; inversion Heq; reflexivity.
    + intros Heq; inversion Heq; subst. congruence.
Qed.

(** *** From [build_vector_store] to [answer_question] *)

Lemma build_vector_store_returns_store
    (documents : list Document) (path : option string) (s s1 : cli) :
  build_vector_store documents path s = (Ok tt, s1) ->
  exists store,
    vector_store (cli_self s1) = Some store
    /\ llm (cli_self s1) = llm (cli_self s)
    /\ qa_chain (cli_self s1) = qa_chain (cli_self s).
Proof.
  unfold build_vector_store, bind, in_world, self_get, self_set, gets, modify,
    print, raise, ret, lib, lib_read, lib_write; simpl.
  repeat (inner_case; simpl; try discriminate);
    intros Heq; inversion Heq; subst; simpl; eauto.
Qed.

(** After a [build_vector_store] that returned, [setup_qa_chain] returns and
    installs a chain over the store just built or loaded, with [k] = 3; a
    question then makes exactly one call, to that chain, and the answer
    carries the question, the chain's result and its source documents (none
    if the chain reports none). *)
Theorem build_setup_answer
    (documents : list Document) (path : option string) (question : string)
    (s s1 : cli) :
  build_vector_store documents path s = (Ok tt, s1) ->
  exists store,
    vector_store (cli_self s1) = Some store
    /\ setup_qa_chain s1
       = (Ok tt,
          Cli (cli_world s1)
              (set_qa_chain (Some (MkChain (llm (cli_self s)) store 3))
                            (cli_self s1)))
    /\ fst (answer_question question (snd (setup_qa_chain s1)))
       = result_map
           (fun out =>
              MkAnswer question (out_result out)
                       (default [] (out_source_documents out)))
           (chain_call (llm (cli_self s)) store 3 question)
    /\ w_calls (cli_world (snd (answer_question question
                                  (snd (setup_qa_chain s1)))))
       = w_calls (cli_world s1) ++ [CallChain question].
Proof.
  intros Hbuild.
  destruct (build_vector_store_returns_store _ _ _ _ Hbuild)
    as (store & Hstore & Hllm & _).
  exists store. split; [exact Hstore|].
  assert (Hsetup :
            setup_qa_chain s1
            = (Ok tt,
               Cli (cli_world s1)
                   (set_qa_chain (Some (MkChain (llm (cli_self s)) store 3))
                                 (cli_self s1)))).
  { unfold setup_qa_chain, bind, self_get, self_set, gets, modify; simpl.
    rewrite Hstore, Hllm. reflexivity. }
  split; [exact Hsetup|].
  rewrite Hsetup.
  unfold answer_question, bind, self_get, gets, in_world, lib, ret; simpl.
  destruct (chain_call (llm (cli_self s)) store 3 question); simpl; auto.
Qed.

(** The index is installed before it is saved: when
    [FAISS.from_documents] returns and [save_local] raises,
    [build_vector_store] raises that exception and the system keeps the new
    index, so that [setup_qa_chain] then returns. *)
Theorem build_vector_store_save_failure
    (documents : list Document) (p : string) (s : cli)
    (store : vstore) (e : exn) :
  truthy_str p = true ->
  path_exists (w_disk (cli_world s)) p = false ->
  documents <> [] ->
  FAISS_from_documents documents (embeddings (cli_self s)) = Ok store ->
  FAISS_save_local store p (w_disk (cli_world s)) = Raised e ->
  fst (build_vector_store documents (Some p) s) = Raised e
  /\ vector_store (cli_self (snd (build_vector_store documents (Some p) s)))
     = Some store
  /\ fst (setup_qa_chain (snd (build_vector_store documents (Some p) s)))
     = Ok tt.
Proof.
  intros Hp Hex Hdocs Hbuild Hsave.
  unfold build_vector_store, setup_qa_chain, bind, in_world, self_get,
    self_set, gets, modify, print, raise, ret, lib, lib_read, lib_write; simpl.
  rewrite Hp; simpl. rewrite Hex; simpl.
  destruct documents as [|d ds]; [congruence|]; simpl.
  rewrite Hbuild; simpl. rewrite Hsave; simpl.
  auto.
Qed.

End Facts.

(** *** [main.py] *)

Section MainFacts.
Context `{Splitting : TextSplitter} `{Libs : Libraries} {Sys : System}.

Lemma bind_inv_ok {W A B} (m : prog W A) (k : A -> prog W B)
    (w w' : W) (b : B) :
  bind m k w = (Ok b, w') ->
  exists a w1, m w = (Ok a, w1) /\ k a w1 = (Ok b, w').
Proof.
  unfold bind. destruct (m w) as [[a|e] w1]; [eauto | discriminate].
Qed.

Lemma on_system_inv_ok {A} (r r' : RAGSystem) (m : prog cli A)
    (w w' : world) (a : A) :
  on_system r m w = (Ok (a, r'), w') -> m (Cli w r) = (Ok a, Cli w' r').
Proof.
  unfold on_system. destruct (m (Cli w r)) as [[a0|e] [w0 r0]]; simpl;
    intros Heq; inversion Heq; reflexivity.
Qed.

Lemma RAGSystem_init_value (base emb_name llm_name : string)
    (w w' : world) (r : RAGSystem) :
  RAGSystem_init base emb_name llm_name w = (Ok r, w') ->
  r = MkRAG base emb_name llm_name
            (Embeddings base emb_name) (Llm base llm_name) None None.
Proof.
  unfold RAGSystem_init, bind, ret.
  destruct (check_ollama_connection base w) as [[[]|e] w1]; intros Heq;
    inversion Heq; reflexivity.
Qed.

(** A system that [initialize_system] returns is ready: it holds an index
    and a chain over that index, with [k] = 3 and the model it was asked
    for.  When there is no document, when the server cannot be reached, no
    system is returned; when building or setting up fails, the exception
    leaves [initialize_system]. *)
Theorem initialize_system_ready
    (data_dir vector_store_dir ollama_url emb_name llm_name : string)
    (w w' : world) (pdf_loader : PDFLoader) (r : RAGSystem) :
  initialize_system data_dir vector_store_dir ollama_url emb_name llm_name w
  = (Ok (pdf_loader, Some r), w') ->
  exists store,
    vector_store r = Some store
    /\ qa_chain r = Some (MkChain (Llm ollama_url llm_name) store 3)
    /\ embeddings r = Embeddings ollama_url emb_name.
Proof.
  unfold initialize_system. intros Hrun.
  apply bind_inv_ok in Hrun as (loader & w1 & _ & Hrun).
  apply bind_inv_ok in Hrun as (documents & w2 & _ & Hrun).
  destruct (negb (truthy_list documents)).
  { apply bind_inv_ok in Hrun as (? & ? & _ & Hrun). inversion Hrun. }
  apply bind_inv_ok in Hrun as (created & w3 & Hcreate & Hrun).
  destruct created as [r0|]; [|inversion Hrun].
  assert (Hr0 : r0 = MkRAG ollama_url emb_name llm_name
                        (Embeddings ollama_url emb_name)
                        (Llm ollama_url llm_name) None None).
  { unfold try_except_class in Hcreate.
    destruct (bind (RAGSystem_init ollama_url emb_name llm_name)
                   (fun r => ret (Some r)) w2) as [[o|e] w0] eqn:Hinit.
    - inversion Hcreate; subst.
      apply bind_inv_ok in Hinit as (r1 & w4 & Hinit & Hret).
      inversion Hret; subst.
      eapply RAGSystem_init_value; exact Hinit.
    - destruct (is_ConnectionError e); [|discriminate].
      unfold bind, print, modify, ret in Hcreate. simpl in Hcreate.
      inversion Hcreate. }
  cbv zeta in Hrun.
  apply bind_inv_ok in Hrun as ([] & w4 & _ & Hrun).
  apply bind_inv_ok in Hrun as ([[] r1] & w5 & Hbuild & Hrun).
  apply bind_inv_ok in Hrun as ([[] r2] & w6 & Hsetup & Hrun).
  inversion Hrun; subst r w'. simpl in *.
  apply on_system_inv_ok in Hbuild, Hsetup.
  destruct (build_vector_store_returns_store _ _ _ _ Hbuild)
    as (store & Hstore & Hllm & _).
  simpl in Hstore, Hllm.
  exists store.
  unfold setup_qa_chain, bind, self_get, self_set, gets, modify in Hsetup.
  simpl in Hsetup. rewrite Hstore in Hsetup. simpl in Hsetup.
  inversion Hsetup; subst r2. simpl.
  rewrite Hstore, Hllm. subst r0. simpl.
  repeat split.
  pose proof Hbuild as Hemb.
  unfold build_vector_store, bind, in_world, self_get, self_set, gets, modify,
    print, raise, ret, lib, lib_read, lib_write in Hemb; simpl in Hemb.
  repeat (match type of Hemb with
          | context [match ?x with _ => _ end] =>
              lazymatch x with
              | context [match _ with _ => _ end] => fail
              | _ => destruct x eqn:?
              end
          end; simpl in Hemb; try discriminate);
    inversion Hemb; reflexivity.
Qed.

(** Reading a directory calls the PDF reader and the splitter only. *)
Lemma load_pdf_calls (self : PDFLoader) (path : string) (w : world) :
  exists l,
    w_calls (snd (load_pdf self path w)) = w_calls w ++ l
    /\ forallb loader_call l = true.
Proof.
  unfold load_pdf, try_except, bind, lib_read, lib, print, modify, ret; simpl.
  destruct (PyPDFLoader_load (w_disk w) path) as [docs|e]; simpl.
  - destruct (split_documents_of (text_splitter self) docs) as [chunks|e];
      simpl.
    + exists [CallPdfLoad path; CallSplitDocuments (length docs)].
      rewrite <- app_assoc. auto.
    + destruct (is_Exception e); simpl;
        exists [CallPdfLoad path; CallSplitDocuments (length docs)];
        rewrite <- app_assoc; auto.
  - destruct (is_Exception e); simpl; exists [CallPdfLoad path]; auto.
Qed.

Lemma load_each_calls (self : PDFLoader) (pdf_files : list string) :
  forall (all_chunks : list Document) (w : world),
  exists l,
    w_calls (snd (load_each self pdf_files all_chunks w)) = w_calls w ++ l
    /\ forallb loader_call l = true.
Proof.
  induction pdf_files as [|pdf_file rest IH]; intros all_chunks w.
  - exists []. simpl. rewrite app_nil_r. auto.
  - cbn [load_each].
    erewrite bind_ok by reflexivity.
    set (w1 := World (w_disk w) _ (w_calls w)).
    destruct (load_pdf_calls self pdf_file w1) as (l1 & Hl1 & Hok1).
    destruct (load_pdf self pdf_file w1) as [[chunks|e] w2] eqn:Hload;
      simpl in Hl1.
    + erewrite bind_ok by exact Hload.
      destruct (IH (all_chunks ++ chunks) w2) as (l2 & Hl2 & Hok2).
      exists (l1 ++ l2). rewrite Hl2, Hl1. rewrite <- app_assoc.
      rewrite forallb_app, Hok1, Hok2. auto.
    + erewrite bind_raised by exact Hload.
      exists l1. auto.
Qed.

Lemma load_pdfs_from_directory_calls
    (self : PDFLoader) (directory_path : string) (w : world) :
  exists l,
    w_calls (snd (load_pdfs_from_directory self directory_path w))
    = w_calls w ++ l
    /\ forallb loader_call l = true.
Proof.
  unfold load_pdfs_from_directory.
  erewrite bind_ok by reflexivity.
  destruct (path_exists (w_disk w) directory_path); simpl.
  - erewrite bind_ok by reflexivity.
    erewrite bind_ok by reflexivity.
    set (w1 := World (w_disk w) _ (w_calls w)).
    destruct (load_each_calls self (glob_pdf (w_disk w) directory_path) [] w1)
      as (l & Hl & Hok).
    destruct (load_each self _ [] w1) as [[chunks|e] w2] eqn:Hload;
      simpl in Hl.
    + erewrite bind_ok by exact Hload. simpl. eauto.
    + erewrite bind_raised by exact Hload. simpl. eauto.
  - exists []. rewrite app_nil_r. auto.
Qed.

Lemma initialize_system_without_documents
    (data_dir vector_store_dir url emb_name llm_name : string)
    (w : world) (sp : splitter) :
  RecursiveCharacterTextSplitter 1000 200 None = Ok sp ->
  forallb (file_catchable (MkPDFLoader 1000 200 sp) (w_disk w))
          (glob_pdf (w_disk w) data_dir) = true ->
  (if path_exists (w_disk w) data_dir
   then flat_map (file_chunks (MkPDFLoader 1000 200 sp) (w_disk w))
                 (glob_pdf (w_disk w) data_dir)
   else []) = [] ->
  exists w2 l,
    initialize_system data_dir vector_store_dir url emb_name llm_name w
    = (Ok (MkPDFLoader 1000 200 sp, None),
       World (w_disk w2)
             (w_stdout w2 ++ ["Warning: No documents found in " +:+ data_dir])
             (w_calls w2))
    /\ w_calls w2 = w_calls w ++ l
    /\ forallb loader_call l = true.
Proof.
  intros Hsp Hcatch Hnone.
  set (loader := MkPDFLoader 1000 200 sp) in *.
  set (w1 := World (w_disk w) (w_stdout w)
                   (w_calls w ++ [CallSplitterInit 1000 200])).
  assert (Hinit : PDFLoader_init 1000 200 w = (Ok loader, w1)).
  { unfold PDFLoader_init, bind, lib, ret. rewrite Hsp. reflexivity. }
  destruct (load_pdfs_from_directory_run loader data_dir w1 Hcatch)
    as (w1' & Hrun & _).
  assert (Hres := f_equal fst Hrun). cbn [fst] in Hres. clear w1' Hrun.
  destruct (load_pdfs_from_directory_calls loader data_dir w1)
    as (l & Hl & Hok).
  change (w_disk w1) with (w_disk w) in Hres. rewrite Hnone in Hres.
  destruct (load_pdfs_from_directory loader data_dir w1) as [r w2] eqn:Hload.
  simpl in Hres, Hl. subst r.
  exists w2, (CallSplitterInit 1000 200 :: l).
  split; [|split].
  - unfold initialize_system.
    erewrite bind_ok by exact Hinit.
    erewrite bind_ok by exact Hload.
    reflexivity.
  - rewrite Hl. rewrite <- app_assoc. reflexivity.
  - simpl. exact Hok.
Qed.

(** When no PDF file yields a chunk, [main] prints that initialisation
    failed and returns without starting a session; the only calls made are
    to the splitter and the PDF reader: the server is not contacted and
    nothing is embedded. *)
Theorem main_without_documents
    (current_dir : string) (environ : gmap string string)
    (keys : list keyboard) (w : world) (sp : splitter) :
  RecursiveCharacterTextSplitter 1000 200 None = Ok sp ->
  forallb (file_catchable (MkPDFLoader 1000 200 sp) (w_disk w))
          (glob_pdf (w_disk w) (path_join current_dir "data")) = true ->
  (if path_exists (w_disk w) (path_join current_dir "data")
   then flat_map (file_chunks (MkPDFLoader 1000 200 sp) (w_disk w))
                 (glob_pdf (w_disk w) (path_join current_dir "data"))
   else []) = [] ->
  fst (main current_dir environ keys w) = Ok None
  /\ last (w_stdout (snd (main current_dir environ keys w)))
     = Some "Failed to initialize RAG System. Please check Ollama is running."
  /\ exists l,
      w_calls (snd (main current_dir environ keys w)) = w_calls w ++ l
      /\ forallb loader_call l = true.
Proof.
  intros Hsp Hcatch Hnone.
  assert (Hmain : exists w2 l out,
             main current_dir environ keys w
             = (Ok None,
                World (w_disk w2)
                      (out ++ ["Failed to initialize RAG System. Please check Ollama is running."])
                      (w_calls w2))
             /\ w_calls w2 = w_calls w ++ l
             /\ forallb loader_call l = true).
  { unfold main.
    destruct (load_environment environ) as [environ' [[url emb_name] llm_name]].
    cbn [snd]. cbv zeta.
    do 4 (unfold bind at 1, print at 1, modify at 1).
    cbn [w_disk w_stdout w_calls].
    set (w0 := World (w_disk w) _ (w_calls w)).
    destruct (initialize_system_without_documents
                (path_join current_dir "data")
                (path_join current_dir "vector_store")
                url emb_name llm_name w0 sp Hsp Hcatch Hnone)
      as (w2 & l & Hrun & Hl & Hok).
    erewrite bind_ok by exact Hrun.
    exists w2, l. eexists. split; [reflexivity | split; assumption]. }
  destruct Hmain as (w2 & l & out & -> & Hl & Hok).
  cbn [fst snd w_stdout w_calls].
  repeat split.
  - apply last_snoc.
  - exists l. split; assumption.
Qed.

(** *** Questions on a ready system *)

Lemma on_system_answer (r : RAGSystem) (c : QAChain) (question : string)
    (w : world) :
  qa_chain r = Some c ->
  on_system r (answer_question question) w
  = match ask_chain c question with
    | Ok out =>
        (Ok (answer_of question out, r),
         World (w_disk w) (w_stdout w) (w_calls w ++ [CallChain question]))
    | Raised e =>
        (Raised e,
         World (w_disk w) (w_stdout w) (w_calls w ++ [CallChain question]))
    end.
Proof.
  intros Hc.
  unfold on_system, answer_question, bind, self_get, gets, in_world, lib, ret,
    ask_chain, answer_of; simpl.
  rewrite Hc.
  destruct (chain_call (qa_llm c) (qa_store c) (qa_k c) question);
    reflexivity.
Qed.

Lemma batch_loop_answered (r : RAGSystem) (c : QAChain)
    (questions : list string) :
  qa_chain r = Some c ->
  forall (i : nat) (results : list Answer) (w : world),
    forallb (fun q => is_ok (ask_chain c q)) questions = true ->
    fst (batch_loop r i questions results w)
    = Ok (results ++ answers_of c questions)
    /\ w_calls (snd (batch_loop r i questions results w))
       = w_calls w ++ (CallChain <$> questions).
Proof.
  intros Hc.
  induction questions as [|q rest IH]; intros i results w Hall.
  - simpl. rewrite !app_nil_r. auto.
  - simpl in Hall. apply andb_prop in Hall as [Hq Hrest].
    cbn [batch_loop answers_of fmap list_fmap].
    erewrite bind_ok by reflexivity.
    set (w1 := World (w_disk w) _ (w_calls w)).
    pose proof (on_system_answer r c q w1 Hc) as Hans.
    destruct (ask_chain c q) as [out|e]; [|discriminate].
    erewrite bind_ok by exact Hans.
    erewrite bind_ok by reflexivity.
    cbn [fst snd].
    set (w2 := World _ _ _).
    destruct (IH (S i) (results ++ [answer_of q out]) w2 Hrest)
      as [IHres IHcalls].
    rewrite IHres, IHcalls. simpl.
    rewrite <- !app_assoc. auto.
Qed.

(** On a system with a chain, when the chain returns on every question,
    [batch_qa] returns one answer per question, in order, each carrying its
    question, and has called the chain once per question, in order. *)
Theorem batch_qa_all_answered (r : RAGSystem) (c : QAChain)
    (questions : list string) (w : world) :
  qa_chain r = Some c ->
  forallb (fun q => is_ok (ask_chain c q)) questions = true ->
  exists answers,
    fst (batch_qa (Some r) questions w) = Ok (Some answers)
    /\ ans_question <$> answers = questions
    /\ w_calls (snd (batch_qa (Some r) questions w))
       = w_calls w ++ (CallChain <$> questions).
Proof.
  intros Hc Hall.
  destruct (batch_loop_answered r c questions Hc 1%nat [] w Hall)
    as [Hres Hcalls].
  exists (answers_of c questions).
  unfold batch_qa.
  destruct (batch_loop r 1 questions [] w) as [res w1] eqn:Hloop.
  simpl in Hres, Hcalls. subst res.
  erewrite bind_ok by exact Hloop.
  simpl. repeat split; [|exact Hcalls].
  clear Hloop Hcalls. induction questions as [|q rest IH]; [reflexivity|].
  simpl in Hall. apply andb_prop in Hall as [Hq Hrest].
  cbn [answers_of]. destruct (ask_chain c q); [|discriminate].
  simpl. f_equal. apply IH, Hrest.
Qed.

(** *** [interactive_qa_session] *)

Lemma print_sources_prints (sources : list Document) :
  forall (i : nat) (w : world),
    fst (print_sources i sources w) = Ok tt
    /\ w_calls (snd (print_sources i sources w)) = w_calls w
    /\ w_disk (snd (print_sources i sources w)) = w_disk w.
Proof.
  induction sources as [|doc rest IH]; intros i w; [simpl; auto|].
  cbn [print_sources].
  erewrite bind_ok by reflexivity.
  set (w1 := World (w_disk w) _ (w_calls w)).
  destruct (IH (S i) w1) as (Hok & Hcalls & Hdisk). auto.
Qed.

(** One line on a system with a chain that fails only with [Exception]s. *)
Lemma guarded_turn_line (r : RAGSystem) (c : QAChain) (typed : string)
    (w : world) :
  qa_chain r = Some c ->
  catchable (ask_chain c (str_strip typed)) = true ->
  fst (guarded_turn r (Line typed) w)
  = Ok (if String.eqb (str_lower (str_strip typed)) "exit"
        then Some Exited else None)
  /\ w_calls (snd (guarded_turn r (Line typed) w))
     = w_calls w ++ (CallChain <$> asked [Line typed]).
Proof.
  intros Hc Hcatch.
  unfold guarded_turn, try_except_class, try_except, turn, bind, print,
    modify, ret.
  cbv zeta. cbn [asked].
  destruct (String.eqb (str_lower (str_strip typed)) "exit").
  { simpl. rewrite app_nil_r. auto. }
  destruct (truthy_str (str_strip typed)) eqn:Hq;
    cbv beta iota delta [negb].
  2:{ simpl. rewrite app_nil_r. auto. }
  cbn [w_disk w_stdout w_calls].
  rewrite (on_system_answer r c (str_strip typed) _ Hc).
  destruct (ask_chain c (str_strip typed)) as [out|e].
  - cbn [fst snd w_disk w_stdout w_calls].
    destruct (truthy_list (ans_sources (answer_of (str_strip typed) out))).
    + match goal with
      | |- context [print_sources ?i ?l ?w0] =>
          destruct (print_sources_prints l i w0) as (Hok & Hcalls & _);
          destruct (print_sources i l w0) as [[[]|e] w3]
      end; simpl in Hok, Hcalls; [|discriminate].
      simpl. rewrite Hcalls. auto.
    + simpl. auto.
  - simpl in Hcatch. cbn [fst snd]. rewrite Hcatch. simpl. auto.
Qed.

Lemma guarded_turn_ctrl_c (r : RAGSystem) (w : world) :
  fst (guarded_turn r CtrlC w) = Ok (Some Interrupted)
  /\ w_calls (snd (guarded_turn r CtrlC w)) = w_calls w.
Proof. split; reflexivity. Qed.

(** On a system with a chain that fails only with [Exception]s, a session
    calls the chain once for each non-blank line typed before the first
    [exit] or Ctrl-C, in order and with the line stripped, and makes no
    other call; it ends with that [exit] or Ctrl-C, and a question on which
    the chain fails does not end it. *)
Theorem session_asks_each_question (r : RAGSystem) (c : QAChain)
    (keys : list keyboard) (w : world) :
  qa_chain r = Some c ->
  (forall question, catchable (ask_chain c question) = true) ->
  fst (session_loop r keys w) = Ok (ending_of keys)
  /\ w_calls (snd (session_loop r keys w))
     = w_calls w ++ (CallChain <$> asked keys).
Proof.
  intros Hc Hcatch. revert w.
  induction keys as [|key rest IH]; intros w.
  - simpl. rewrite app_nil_r. auto.
  - cbn [session_loop].
    destruct key as [typed|].
    + destruct (guarded_turn_line r c typed w Hc (Hcatch _)) as [Hres Hcalls].
      destruct (guarded_turn r (Line typed) w) as [res w1] eqn:Hturn.
      simpl in Hres, Hcalls. subst res.
      erewrite bind_ok by exact Hturn.
      cbn [ending_of asked] in *.
      destruct (String.eqb (str_lower (str_strip typed)) "exit").
      * simpl. simpl in Hcalls. auto.
      * destruct (IH w1) as [IHres IHcalls].
        split; [exact IHres|].
        rewrite IHcalls, Hcalls.
        destruct (truthy_str (str_strip typed)); simpl;
          rewrite <- ?app_assoc; simpl; rewrite ?app_nil_r; reflexivity.
    + destruct (guarded_turn_ctrl_c r w) as [Hres Hcalls].
      destruct (guarded_turn r CtrlC w) as [res w1] eqn:Hturn.
      simpl in Hres, Hcalls. subst res.
      erewrite bind_ok by exact Hturn.
      simpl. rewrite app_nil_r. auto.
Qed.

Lemma session_loop_raised (r : RAGSystem)
    (keys : list keyboard) (w : world) (e : exn) :
  fst (session_loop r keys w) = Raised e ->
  is_Exception e = false /\ is_KeyboardInterrupt e = false.
Proof.
  revert w. induction keys as [|key rest IH]; intros w; [discriminate|].
  cbn [session_loop]. unfold bind at 1.
  destruct (guarded_turn r key w) as [[stop|e0] w1] eqn:Hturn.
  - destruct stop; [discriminate | apply IH].
  - simpl. intros Heq. inversion Heq; subst e0. clear Heq.
    unfold guarded_turn, try_except_class, try_except in Hturn.
    match type of Hturn with
    | context [bind ?m ?k w] => destruct (bind m k w) as [[a|e1] w2]
    end; [discriminate|].
    destruct (is_Exception e1) eqn:He1; simpl in Hturn.
    + discriminate.
    + destruct (is_KeyboardInterrupt e1) eqn:Hk1; simpl in Hturn;
        [discriminate|].
      inversion Hturn; subst. auto.
Qed.

(** Neither an [Exception] nor a [KeyboardInterrupt] leaves the loop of a
    session, whatever the system, the chain and the user do. *)
Theorem session_loop_contains_errors (r : RAGSystem)
    (keys : list keyboard) (w : world) (e : exn) :
  is_Exception e = true \/ is_KeyboardInterrupt e = true ->
  fst (session_loop r keys w) <> Raised e.
Proof.
  intros Hclass Hraised.
  destruct (session_loop_raised r keys w e Hraised) as [He Hk].
  destruct Hclass; congruence.
Qed.

(** On a system without a chain every question is refused and the session
    goes on: it makes no call and ends only with [exit] or Ctrl-C. *)
Theorem session_without_chain (r : RAGSystem)
    (keys : list keyboard) (w : world) :
  qa_chain r = None ->
  fst (session_loop r keys w) = Ok (ending_of keys)
  /\ w_calls (snd (session_loop r keys w)) = w_calls w.
Proof.
  intros Hc. revert w.
  induction keys as [|key rest IH]; intros w; [simpl; auto|].
  cbn [session_loop ending_of].
  destruct key as [typed|]; [|simpl; auto].
  assert (Hturn : exists w1,
             guarded_turn r (Line typed) w
             = (Ok (if String.eqb (str_lower (str_strip typed)) "exit"
                    then Some Exited else None), w1)
             /\ w_calls w1 = w_calls w).
  { unfold guarded_turn, try_except_class, try_except, turn, bind, print,
      modify, ret, on_system, answer_question, self_get, gets, raise.
    cbv zeta.
    destruct (String.eqb (str_lower (str_strip typed)) "exit");
      [eexists; split; reflexivity|].
    destruct (truthy_str (str_strip typed)); cbv beta iota delta [negb];
      [|eexists; split; reflexivity].
    unfold bind. simpl. rewrite Hc. simpl. eexists; split; reflexivity. }
  destruct Hturn as (w1 & Hturn & Hcalls).
  erewrite bind_ok by exact Hturn.
  destruct (String.eqb (str_lower (str_strip typed)) "exit").
  - simpl. auto.
  - destruct (IH w1) as [IHres IHcalls]. rewrite IHcalls, Hcalls. auto.
Qed.

End MainFacts.

End PdfRagAppMore.

(** ** More on the Streamlit variant *)

Module PdfRagMore.
Import PdfRag PdfRagText.

Section Facts.
Context `{Splitting : TextSplitter} `{Services : Core}.

(** Running the first statement of a block whose outcome is known. *)
Ltac run_head tac :=
  lazymatch goal with
  | |- bind ?m ?k ?w = _ =>
      erewrite (PdfRagAppMore.bind_ok m k w) by tac; cbv beta zeta
  end.

(** *** [ConfigLoader] *)

(** Substitution reaches every level: the value found under a path of keys
    in the loaded configuration is the substituted value found under that
    path in the file. *)
Theorem lookup_path_after_replace_env_vars
    (environ : gmap string string) (path : list string) (config : yaml) :
  lookup_path (replace_env_vars environ config) path
  = replace_env_vars environ <$> lookup_path config path.
Proof.
  revert config. induction path as [|key rest IH]; intros config;
    [reflexivity|].
  destruct config as [| | | |s|l|d]; simpl; try reflexivity.
  - destruct (startswith "${" s && endswith "}" s); reflexivity.
  - rewrite lookup_fmap.
    destruct (d !! key) as [v|]; simpl; [apply IH | reflexivity].
Qed.

Lemma load_config_returns (self self' : ConfigLoader) (config_file : string)
    (w w' : world) (config : yaml) :
  load_config self config_file w = (Ok (config, self'), w') ->
  self' = MkConfigLoader (config_dir self)
                         (<[config_file := config]> (configs self)).
Proof.
  unfold load_config, try_except, bind, gets, of_result, raise, ret, logger,
    modify; cbv zeta; simpl.
  destruct (w_yaml w !! joinpath (config_dir self) config_file) as [[c|e]|];
    simpl.
  - intros Heq. inversion Heq. reflexivity.
  - destruct (is_Exception e); discriminate.
  - discriminate.
Qed.

(** What [load_config] returned stays cached: [get_config] on the loader it
    leaves returns the same configuration from any world, without reading
    the disk or logging, whatever has become of the file; the entries cached
    for other files are untouched. *)
Theorem get_config_after_load_config
    (self self' : ConfigLoader) (config_file : string)
    (w w' v : world) (config : yaml) :
  load_config self config_file w = (Ok (config, self'), w') ->
  get_config self' config_file v = (Ok (config, self'), v)
  /\ forall other,
      other <> config_file -> configs self' !! other = configs self !! other.
Proof.
  intros Hload. apply load_config_returns in Hload. subst self'.
  split.
  - unfold get_config. simpl. rewrite lookup_insert_eq. reflexivity.
  - intros other Hne. simpl. apply lookup_insert_ne. congruence.
Qed.

Lemma load_config_found (self : ConfigLoader) (config_file : string)
    (w : world) (config : yaml) :
  w_yaml w !! joinpath (config_dir self) config_file = Some (Ok config) ->
  load_config self config_file w
  = (Ok (replace_env_vars (w_environ w) config,
         MkConfigLoader (config_dir self)
           (<[config_file := replace_env_vars (w_environ w) config]>
              (configs self))),
     World (w_yaml w) (w_raw w) (w_environ w) (w_db w) (w_session w) (w_ui w)
           (w_log w ++ [(INFO, "Loaded configuration from " +:+ config_file)])
           (w_calls w)).
Proof.
  intros Hfile.
  unfold load_config, try_except, bind, gets, of_result, raise, ret, logger,
    modify; cbv zeta; simpl.
  rewrite Hfile. reflexivity.
Qed.

(** *** [initialize_components] *)

(** Components are created once: when the session already holds all four
    and both configuration files load, [initialize_components] returns
    [True] without constructing anything; the session, the collection and
    the call log are as before. *)
Theorem initialize_components_keeps_components
    (w : world) (model_config rag_config : yaml) :
  w_yaml w !! "configs/model_config.yaml" = Some (Ok model_config) ->
  w_yaml w !! "configs/rag_config.yaml" = Some (Ok rag_config) ->
  truthy_opt (embedding_generator (w_session w)) = true ->
  truthy_opt (vector_store (w_session w)) = true ->
  truthy_opt (llm (w_session w)) = true ->
  truthy_opt (retriever (w_session w)) = true ->
  fst (initialize_components w) = Ok true
  /\ w_session (snd (initialize_components w)) = w_session w
  /\ w_calls (snd (initialize_components w)) = w_calls w
  /\ w_db (snd (initialize_components w)) = w_db w
  /\ w_ui (snd (initialize_components w)) = w_ui w.
Proof.
  intros Hmodel Hrag Hg Hv Hl Hr.
  assert (Hbody : exists w',
             initialize_components_body w = (Ok true, w')
             /\ w_session w' = w_session w /\ w_calls w' = w_calls w
             /\ w_db w' = w_db w /\ w_ui w' = w_ui w).
  { eexists. split.
    - unfold initialize_components_body.
      run_head ltac:(reflexivity).
      run_head ltac:(apply load_config_found; exact Hmodel).
      run_head ltac:(apply load_config_found; exact Hrag).
      run_head ltac:(reflexivity). cbn [w_session]. rewrite Hg. cbv iota.
      run_head ltac:(reflexivity).
      run_head ltac:(reflexivity). cbn [w_session]. rewrite Hv. cbv iota.
      run_head ltac:(reflexivity).
      run_head ltac:(reflexivity). cbn [w_session]. rewrite Hl. cbv iota.
      run_head ltac:(reflexivity).
      run_head ltac:(reflexivity). cbn [w_session]. rewrite Hr. cbv iota.
      run_head ltac:(reflexivity).
      reflexivity.
    - simpl. auto. }
  destruct Hbody as (w' & Hbody & Hs & Hc & Hd & Hu).
  unfold initialize_components, try_except. rewrite Hbody. simpl. auto.
Qed.

(** A key that is missing is noticed when it is read, not when the file is
    loaded: with no embedding generator in the session and no
    [embeddings] entry in [model_config.yaml], [initialize_components]
    shows the [KeyError], returns [False] and has constructed nothing. *)
Theorem initialize_components_missing_key
    (w : world) (entries : gmap string yaml) (rag_config : yaml) :
  w_yaml w !! "configs/model_config.yaml" = Some (Ok (YDict entries)) ->
  w_yaml w !! "configs/rag_config.yaml" = Some (Ok rag_config) ->
  entries !! "embeddings" = None ->
  embedding_generator (w_session w) = None ->
  fst (initialize_components w) = Ok false
  /\ w_ui (snd (initialize_components w))
     = w_ui w ++ [UiError "Error initializing components: 'embeddings'"]
  /\ w_session (snd (initialize_components w)) = w_session w
  /\ w_calls (snd (initialize_components w)) = w_calls w.
Proof.
  intros Hmodel Hrag Hmiss Hg.
  assert (Hbody : exists w',
             initialize_components_body w
             = (Raised (Exn KeyError "'embeddings'"), w')
             /\ w_session w' = w_session w /\ w_calls w' = w_calls w
             /\ w_ui w' = w_ui w).
  { eexists. split.
    - unfold initialize_components_body.
      run_head ltac:(reflexivity).
      run_head ltac:(apply load_config_found; exact Hmodel).
      run_head ltac:(apply load_config_found; exact Hrag).
      run_head ltac:(reflexivity). cbn [w_session]. rewrite Hg. cbv iota.
      apply PdfRagAppMore.bind_raised.
      apply PdfRagAppMore.bind_raised.
      unfold of_result, getitem. cbn [fst replace_env_vars].
      rewrite lookup_fmap, Hmiss. reflexivity.
    - simpl. auto. }
  destruct Hbody as (w' & Hbody & Hs & Hc & Hu).
  unfold initialize_components, try_except. rewrite Hbody.
  unfold bind, st, logger, modify, ret. simpl.
  rewrite Hs, Hc, Hu. auto.
Qed.

(** *** What the three [try] blocks let through *)

Lemma try_except_total {A} (body : prog world A)
    (handler : exn -> prog world A) (w : world) (e : exn) :
  (forall e' w', is_ok (fst (handler e' w')) = true) ->
  fst (try_except body handler w) = Raised e ->
  is_Exception e = false.
Proof.
  intros Hh. unfold try_except.
  destruct (body w) as [[a|e0] w1]; simpl; [discriminate|].
  destruct (is_Exception e0) eqn:He0.
  - specialize (Hh e0 w1). intros Heq. rewrite Heq in Hh. discriminate.
  - simpl. intros Heq. inversion Heq; subst. exact He0.
Qed.

(** No [Exception] leaves [initialize_components], [process_pdf] or
    [answer_question]: each turns it into a return value. *)
Theorem no_exception_escapes
    (uploaded : Upload) (question : string) (w : world) (e : exn) :
  is_Exception e = true ->
  fst (initialize_components w) <> Raised e
  /\ fst (process_pdf uploaded w) <> Raised e
  /\ fst (answer_question question w) <> Raised e.
Proof.
  intros He.
  repeat split; intros Hraised;
    apply try_except_total in Hraised;
    try congruence; intros e' w'; reflexivity.
Qed.

(** *** [answer_question] and the chat history *)

(** [answer_question] leaves the chat history as it was or appends exactly
    one entry, and it appends one only when it returns an answer with its
    non-empty sources: the entry then holds the question, that answer and
    those sources.  It changes neither the loaded flag nor the
    collection. *)
Theorem answer_question_history (question : string) (w : world) :
  (chat_history (w_session (snd (answer_question question w)))
   = chat_history (w_session w)
   \/ exists text docs,
       fst (answer_question question w) = Ok (AnswerPair text docs)
       /\ docs <> []
       /\ chat_history (w_session (snd (answer_question question w)))
          = chat_history (w_session w) ++ [MkChat question text docs])
  /\ documents_loaded (w_session (snd (answer_question question w)))
     = documents_loaded (w_session w)
  /\ w_db (snd (answer_question question w)) = w_db w.
Proof.
  unfold answer_question, try_except, answer_question_body, bind, session,
    gets, attr, lib_db, lib, set_session, modify, ret, raise, logger,
    record_call; simpl.
  repeat (inner_case; simpl; auto).
  split; [|auto]. right. eexists _, _.
  split; [reflexivity|]. split; [|reflexivity].
  destruct a; [discriminate | congruence].
Qed.

(** *** The content area *)

(** With documents loaded, a click on "Get Answer" for a question on which
    retrieval finds nothing does not show the fixed message: the bare
    string [answer_question] returns cannot be unpacked into an answer and
    its sources, and [ValueError] leaves the content area after the
    "Documents loaded" banner. *)
Theorem content_empty_retrieval_raises
    (ws : widgets) (w : world) (r : retriever_t) :
  documents_loaded (w_session w) = true ->
  answer_clicked ws = true ->
  question_input ws <> "" ->
  retriever (w_session w) = Some r ->
  retrieve r (w_db w) (question_input ws) = Ok [] ->
  fst (content ws w)
  = Raised (Exn ValueError "too many values to unpack (expected 2)")
  /\ w_ui (snd (content ws w))
     = w_ui w ++ [UiSuccess "✅ Documents loaded! Ask questions below."]
  /\ w_calls (snd (content ws w))
     = w_calls w ++ [CallRetrieve (question_input ws)].
Proof.
  intros Hloaded Hclick Hq Hr Hempty.
  assert (Htruthy : truthy_str (question_input ws) = true)
    by (destruct (question_input ws); [congruence | reflexivity]).
  unfold content, answer_question, try_except, answer_question_body, unpack,
    bind, session, gets, attr, lib_db, st, modify, ret, raise, record_call;
    simpl.
  rewrite Hloaded, Hclick, Htruthy; simpl.
  rewrite Hr; simpl. rewrite Hempty; simpl.
  auto.
Qed.

(** A whole run of [main] in which no document is loaded leaves the
    session unloaded, whatever is clicked and whichever calls fail. *)
Theorem main_keeps_unloaded (ws : widgets) (w : world) :
  unloaded w ->
  run_loads ws w = false ->
  unloaded (snd (main ws w)).
Proof.
  intros Hw Hno.
  apply (PdfRagFacts.reach_unloaded_keeps_flag w); [exact Hw|].
  apply PdfRagFacts.main_reach_unloaded; [apply ru_init | exact Hno].
Qed.

(** *** The "Clear Database" button *)

(** When the collection is not empty and "Clear Database" is clicked, the
    collection is reset, the loaded flag and the chat history are cleared
    and the script is rerun; on that rerun the content area asks for an
    upload again. *)
Theorem stats_section_clears
    (ws ws' : widgets) (w : world) (v : store) (count : Z) (d : db) :
  vector_store (w_session w) = Some v ->
  get_collection_count v (w_db w) = Ok count ->
  0 < count ->
  clear_clicked ws = true ->
  reset_collection v (w_db w) = Ok d ->
  fst (stats_section ws w) = Raised (Exn RerunException "")
  /\ w_db (snd (stats_section ws w)) = d
  /\ documents_loaded (w_session (snd (stats_section ws w))) = false
  /\ chat_history (w_session (snd (stats_section ws w))) = []
  /\ fst (content ws' (snd (stats_section ws w))) = Ok tt
  /\ last (w_ui (snd (content ws' (snd (stats_section ws w)))))
     = Some (UiInfo upload_prompt).
Proof.
  intros Hv Hcount Hpos Hclick Hreset.
  assert (Hrun : exists w',
             stats_section ws w = (Raised (Exn RerunException ""), w')
             /\ w_db w' = d
             /\ documents_loaded (w_session w') = false
             /\ chat_history (w_session w') = []).
  { unfold stats_section, bind, session, gets, attr, lib_db, lib_db_update,
      set_session, st, modify, ret, raise, record_call; simpl.
    rewrite Hv; simpl. rewrite Hcount; simpl.
    apply Z.ltb_lt in Hpos. rewrite Hpos, Hclick; simpl.
    rewrite Hv; simpl. rewrite Hreset; simpl.
    eexists. repeat split. }
  destruct Hrun as (w' & -> & Hd & Hflag & Hhist).
  cbn [fst snd].
  rewrite (PdfRagFacts.content_unloaded ws' w' Hflag).
  repeat split; try assumption.
  unfold st, modify; simpl. apply last_snoc.
Qed.

(** *** [TextProcessor] *)

(** [split_text] adds nothing of its own: it returns the chunks of the
    splitter unchanged, or raises the splitter's exception unchanged, after
    exactly one call to the splitter; it changes neither the session nor
    the collection. *)
Theorem split_text_forwards (self : TextProcessor) (text : string)
    (w : world) :
  fst (split_text self text w) = split_text_of (text_splitter self) text
  /\ w_calls (snd (split_text self text w)) = w_calls w ++ [CallSplitText text]
  /\ w_session (snd (split_text self text w)) = w_session w
  /\ w_db (snd (split_text self text w)) = w_db w.
Proof.
  unfold split_text, try_except, bind, lib, logger, modify, ret, raise,
    record_call; simpl.
  destruct (split_text_of (text_splitter self) text) as [chunks|e]; simpl;
    [auto|].
  destruct (is_Exception e); simpl; auto.
Qed.

(** *** [process_pdf] *)

(** When [process_pdf] returns [True], the loaded flag is set, the last call
    made is the insertion into the collection, which returned, and the last
    message shown is the one that reports the stored chunks. *)
Theorem process_pdf_true (uploaded : Upload) (w : world) :
  fst (process_pdf uploaded w) = Ok true ->
  documents_loaded (w_session (snd (process_pdf uploaded w))) = true
  /\ exists chunks,
      last (w_calls (snd (process_pdf uploaded w)))
      = Some (CallAddDocuments chunks)
      /\ last (w_ui (snd (process_pdf uploaded w)))
         = Some (UiSuccess ("✅ Stored " +:+ pretty (length chunks)
                            +:+ " chunks in vector database")).
Proof.
  unfold process_pdf, try_except.
  destruct (process_pdf_body uploaded w) as [[b|e] w1] eqn:Hb; simpl.
  2:{ destruct (is_Exception e); simpl; discriminate. }
  intros Heq. inversion Heq; subst b. clear Heq.
  unfold process_pdf_body in Hb. cbv zeta in Hb.
  repeat (apply PdfRagAppMore.bind_inv_ok in Hb as (? & ? & ? & Hb);
          cbv beta zeta in Hb).
  inversion Hb; subst w1. clear Hb.
  repeat match goal with
         | H : set_session _ _ = (Ok _, _) |- _ =>
             unfold set_session, modify in H; inversion H; clear H; subst
         | H : st _ _ = (Ok _, _) |- _ =>
             unfold st, modify in H; inversion H; clear H; subst
         end.
  match goal with
  | H : lib_db_update (CallAddDocuments ?chunks) _ _ = (Ok _, _) |- _ =>
      unfold lib_db_update in H; simpl;
      split; [reflexivity | exists chunks]
  end.
  match goal with
  | H : match ?r with _ => _ end = (Ok _, _) |- _ =>
      destruct r as [[? ?]|?]; inversion H; subst; simpl
  end.
  split; apply last_snoc.
Qed.

(** *** [create_documents] *)

Lemma chunk_documents_texts (metadata : gmap string yaml) (total : nat)
    (chunks : list string) :
  forall i, doc_text <$> chunk_documents metadata total i chunks = chunks.
Proof.
  induction chunks as [|chunk rest IH]; intros i; [reflexivity|].
  cbn [chunk_documents fmap list_fmap doc_text]. f_equal. apply IH.
Qed.

Lemma chunk_documents_numbered (metadata : gmap string yaml) (total : nat)
    (chunks : list string) :
  forall i : nat,
    (i + length chunks <= total)%nat ->
    Forall numbered (chunk_documents metadata total i chunks).
Proof.
  induction chunks as [|chunk rest IH]; intros i Hle; [constructor|].
  cbn [chunk_documents]. simpl in Hle. constructor.
  - exists (Z.of_nat i), (Z.of_nat total). simpl.
    rewrite lookup_insert_ne by discriminate.
    rewrite !lookup_insert_eq. repeat split; lia.
  - apply IH. lia.
Qed.

Lemma create_documents_loop_documents (self : TextProcessor)
    (metadatas : option (list (gmap string yaml))) (texts : list string) :
  forall (i : nat) (all_chunks : list ChunkDocument) (w : world),
    forallb (fun text => is_ok (split_text_of (text_splitter self) text))
            texts = true ->
    exists documents,
      fst (create_documents_loop self metadatas i texts all_chunks w)
      = Ok (all_chunks ++ documents)
      /\ doc_text <$> documents = flat_map (chunks_of_text self) texts
      /\ Forall numbered documents.
Proof.
  induction texts as [|text rest IH]; intros i all_chunks w Hall.
  - exists []. simpl. rewrite app_nil_r. auto.
  - simpl in Hall. apply andb_prop in Hall as [Htext Hrest].
    cbn [create_documents_loop flat_map].
    pose proof (PdfRagFacts.split_text_outcome self text w) as Hsplit.
    unfold chunks_of_text at 1.
    destruct (split_text_of (text_splitter self) text) as [chunks|e];
      [|discriminate].
    destruct (split_text self text w) as [r w1] eqn:Hrun.
    simpl in Hsplit. subst r.
    erewrite PdfRagAppMore.bind_ok by exact Hrun. cbv zeta.
    destruct (IH (S i)
                (all_chunks
                 ++ chunk_documents (metadata_at metadatas i)
                      (length chunks) 0 chunks) w1 Hrest)
      as (documents & Hres & Htexts & Hnum).
    exists (chunk_documents (metadata_at metadatas i) (length chunks) 0 chunks
            ++ documents).
    rewrite Hres, <- app_assoc. split; [reflexivity|]. split.
    + rewrite fmap_app, chunk_documents_texts, Htexts. reflexivity.
    + apply Forall_app. split; [|exact Hnum].
      apply chunk_documents_numbered. simpl. lia.
Qed.

(** When the splitter returns on every text, [create_documents] returns one
    document per chunk, the chunks of the first text first and each text's
    chunks in the splitter's order; every document carries a [chunk_index]
    and a [total_chunks] with [0 <= chunk_index < total_chunks]. *)
Theorem create_documents_numbered (self : TextProcessor)
    (texts : list string) (metadatas : option (list (gmap string yaml)))
    (w : world) :
  forallb (fun text => is_ok (split_text_of (text_splitter self) text))
          texts = true ->
  exists documents,
    fst (create_documents self texts metadatas w) = Ok documents
    /\ doc_text <$> documents = flat_map (chunks_of_text self) texts
    /\ Forall numbered documents.
Proof.
  intros Hall.
  destruct (create_documents_loop_documents self metadatas texts 0%nat [] w Hall)
    as (documents & Hres & Htexts & Hnum).
  exists documents. split; [|auto].
  unfold create_documents, try_except.
  destruct (create_documents_loop self metadatas 0 texts [] w) as [r w1] eqn:Hloop.
  simpl in Hres. subst r.
  erewrite PdfRagAppMore.bind_ok by exact Hloop.
  reflexivity.
Qed.

End Facts.

(** *** [clean_text] *)

Section CleanTextFacts.
Context {char : Type} `{EqDecision char}.
Variable isspace : char -> bool.
Variable space nul : char.
Hypothesis space_is_space : isspace space = true.
Hypothesis space_not_nul : space <> nul.

Lemma split_whitespace_words (text : list char) :
  Forall (is_word isspace) (split_whitespace isspace text).
Proof.
  induction text as [|c rest IH]; [constructor|].
  cbn [split_whitespace].
  destruct (isspace c) eqn:Hc; [exact IH|].
  destruct rest as [|c' rest'].
  - repeat constructor; [discriminate | exact Hc].
  - destruct (isspace c') eqn:Hc'.
    + constructor; [|exact IH].
      split; [discriminate | repeat constructor; exact Hc].
    + destruct (split_whitespace isspace (c' :: rest')) as [|word words].
      * repeat constructor; [discriminate | exact Hc].
      * inversion IH as [|? ? [Hne Hword] Hwords]; subst.
        constructor; [|exact Hwords].
        split; [discriminate | constructor; assumption].
Qed.

Lemma split_whitespace_word (word : list char) :
  is_word isspace word -> split_whitespace isspace word = [word].
Proof.
  intros [Hne Hword].
  induction word as [|c rest IH]; [congruence|].
  inversion Hword as [|? ? Hc Hrest]; subst.
  cbn [split_whitespace]. rewrite Hc.
  destruct rest as [|c' rest']; [reflexivity|].
  inversion Hrest as [|? ? Hc' _]; subst. rewrite Hc'.
  rewrite IH by (try discriminate; assumption). reflexivity.
Qed.

Lemma split_whitespace_word_space (word text : list char) :
  is_word isspace word -> split_whitespace isspace (word ++ space :: text) = word :: split_whitespace isspace text.
Proof.
  intros [Hne Hword].
  induction word as [|c rest IH]; [congruence|].
  inversion Hword as [|? ? Hc Hrest]; subst.
  cbn [app split_whitespace]. rewrite Hc.
  destruct rest as [|c' rest'].
  - cbn [app]. rewrite space_is_space.
    cbn [split_whitespace]. rewrite space_is_space. reflexivity.
  - cbn [app]. inversion Hrest as [|? ? Hc' _]; subst. rewrite Hc'.
    change (c' :: rest' ++ space :: text)
      with ((c' :: rest') ++ space :: text).
    rewrite IH by (try discriminate; assumption). reflexivity.
Qed.

Lemma split_join (words : list (list char)) :
  Forall (is_word isspace) words -> split_whitespace isspace (join_space space words) = words.
Proof.
  induction words as [|word words' IH]; intros Hall; [reflexivity|].
  inversion Hall as [|? ? Hword Hwords]; subst.
  destruct words' as [|word' words''].
  - apply split_whitespace_word, Hword.
  - change (join_space space (word :: word' :: words''))
      with (word ++ space :: join_space space (word' :: words'')).
    rewrite split_whitespace_word_space by exact Hword.
    rewrite IH by exact Hwords. reflexivity.
Qed.

Lemma split_whitespace_Forall (P : char -> Prop) (text : list char) :
  Forall P text -> Forall (Forall P) (split_whitespace isspace text).
Proof.
  induction text as [|c rest IH]; intros Hall; [constructor|].
  inversion Hall as [|? ? Hc Hrest]; subst.
  specialize (IH Hrest).
  cbn [split_whitespace].
  destruct (isspace c); [exact IH|].
  destruct rest as [|c' rest']; [repeat constructor; exact Hc|].
  destruct (isspace c'); [constructor; [repeat constructor; exact Hc | exact IH]|].
  destruct (split_whitespace isspace (c' :: rest')) as [|word words];
    [repeat constructor; exact Hc|].
  inversion IH; subst. constructor; [constructor|]; assumption.
Qed.

Lemma join_space_Forall (P : char -> Prop) (words : list (list char)) :
  P space -> Forall (Forall P) words -> Forall P (join_space space words).
Proof.
  intros Hspace. induction words as [|word words' IH]; intros Hall;
    [constructor|].
  inversion Hall as [|? ? Hword Hwords]; subst.
  destruct words' as [|word' words'']; [exact Hword|].
  change (join_space space (word :: word' :: words''))
    with (word ++ space :: join_space space (word' :: words'')).
  apply Forall_app. split; [exact Hword|].
  constructor; [exact Hspace | apply IH, Hwords].
Qed.

Lemma remove_nul_without_nul (text : list char) :
  Forall (fun c => c <> nul) text -> remove_nul nul text = text.
Proof.
  unfold remove_nul. induction text as [|c rest IH]; intros Hall;
    [reflexivity|].
  inversion Hall as [|? ? Hc Hrest]; subst.
  rewrite filter_cons_True by exact Hc. rewrite IH by exact Hrest.
  reflexivity.
Qed.

(** On a text without NUL, [clean_text] returns the words of the text, in
    order, separated by single spaces: it keeps the words, and cleaning a
    cleaned text changes nothing. *)
Theorem clean_text_normalises (text : list char) :
  Forall (fun c => c <> nul) text ->
  clean_text isspace space nul text = join_space space (split_whitespace isspace text)
  /\ split_whitespace isspace (clean_text isspace space nul text) = split_whitespace isspace text
  /\ clean_text isspace space nul (clean_text isspace space nul text)
     = clean_text isspace space nul text.
Proof.
  intros Hnul.
  assert (Hclean : clean_text isspace space nul text = join_space space (split_whitespace isspace text)).
  { unfold clean_text. apply remove_nul_without_nul.
    apply join_space_Forall; [exact space_not_nul|].
    apply split_whitespace_Forall, Hnul. }
  assert (Hwords : split_whitespace isspace (clean_text isspace space nul text) = split_whitespace isspace text).
  { rewrite Hclean. apply split_join, split_whitespace_words. }
  repeat split; [exact Hclean | exact Hwords |].
  unfold clean_text at 1. rewrite Hwords. reflexivity.
Qed.

End CleanTextFacts.

End PdfRagMore.

(** ** Runs of the added properties on the sample collaborators *)

Module MoreRuns.
Import Sample SampleMore.

Lemma load_pdfs_from_directory_chunks_witness :
  fst (PdfRagApp.load_pdfs_from_directory sample_loader "data" mixed_world)
  = Ok sample_docs
  /\ PdfRagApp.w_disk
       (snd (PdfRagApp.load_pdfs_from_directory sample_loader "data"
               mixed_world))
     = mixed_disk.
Proof.
  apply (PdfRagAppMore.load_pdfs_from_directory_chunks
           sample_loader "data" mixed_world).
  reflexivity.
Defined.

Lemma RAGSystem_init_raises_ConnectionError_witness :
  fst (PdfRagApp.RAGSystem_init (Libs:=libraries_503)
         "http://localhost:11434" "nomic-embed-text" "mistral" world_503)
  = Raised (Exn ConnectionError
              "Error connecting to Ollama: Ollama returned status code 503")
  /\ exn_cls (Exn ConnectionError
                "Error connecting to Ollama: Ollama returned status code 503")
     = ConnectionError.
Proof.
  split; [reflexivity|].
  apply (PdfRagAppMore.RAGSystem_init_raises_ConnectionError
           (Libs:=libraries_503)
           "http://localhost:11434" "nomic-embed-text" "mistral" world_503);
    reflexivity.
Defined.

Lemma check_ollama_connection_bad_status_witness :
  fst (PdfRagApp.check_ollama_connection (Libs:=libraries_503)
         "http://localhost:11434" world_503)
  = Raised (Exn ConnectionError
              "Error connecting to Ollama: Ollama returned status code 503").
Proof.
  apply (PdfRagAppFacts.check_ollama_connection_bad_status
           (Libs:=libraries_503) "http://localhost:11434" 503 world_503);
    [reflexivity | discriminate].
Defined.

Lemma build_setup_answer_witness :
  let s1 := snd (PdfRagApp.build_vector_store sample_docs None fresh_system) in
  exists store,
    PdfRagApp.vector_store (PdfRagApp.cli_self s1) = Some store
    /\ PdfRagApp.setup_qa_chain s1
       = (Ok tt,
          PdfRagApp.Cli (PdfRagApp.cli_world s1)
            (PdfRagApp.set_qa_chain
               (Some (PdfRagApp.MkChain
                        (PdfRagApp.llm (PdfRagApp.cli_self fresh_system))
                        store 3))
               (PdfRagApp.cli_self s1)))
    /\ fst (PdfRagApp.answer_question "What is the capital of France?"
              (snd (PdfRagApp.setup_qa_chain s1)))
       = result_map
           (fun out =>
              PdfRagApp.MkAnswer "What is the capital of France?"
                (PdfRagApp.out_result out)
                (default [] (PdfRagApp.out_source_documents out)))
           (PdfRagApp.chain_call
              (PdfRagApp.llm (PdfRagApp.cli_self fresh_system)) store 3
              "What is the capital of France?")
    /\ PdfRagApp.w_calls
         (PdfRagApp.cli_world
            (snd (PdfRagApp.answer_question "What is the capital of France?"
                    (snd (PdfRagApp.setup_qa_chain s1)))))
       = PdfRagApp.w_calls (PdfRagApp.cli_world s1)
         ++ [PdfRagApp.CallChain "What is the capital of France?"].
Proof.
  intros s1.
  apply (PdfRagAppMore.build_setup_answer sample_docs None
           "What is the capital of France?" fresh_system s1).
  reflexivity.
Defined.

Lemma build_vector_store_save_failure_witness :
  let after :=
    PdfRagApp.build_vector_store (Libs:=libraries_read_only)
      sample_docs (Some index_path) system_read_only in
  fst after
  = Raised (Exn OtherError "Permission denied: vector_store/faiss_index")
  /\ PdfRagApp.vector_store (PdfRagApp.cli_self (snd after))
     = Some (Faiss sample_docs "nomic-embed-text"
               (PdfRagApp.Embeddings "http://localhost:11434"
                                     "nomic-embed-text"))
  /\ fst (PdfRagApp.setup_qa_chain (snd after)) = Ok tt.
Proof.
  apply (PdfRagAppMore.build_vector_store_save_failure
           (Libs:=libraries_read_only)
           sample_docs index_path system_read_only);
    [reflexivity | reflexivity | discriminate | reflexivity | reflexivity].
Defined.

Lemma initialize_system_ready_witness :
  exists pdf_loader r w',
    PdfRagAppMain.initialize_system "data" "vector_store"
      "http://localhost:11434" "nomic-embed-text" "mistral" mixed_world
    = (Ok (pdf_loader, Some r), w')
    /\ exists store,
        PdfRagApp.vector_store r = Some store
        /\ PdfRagApp.qa_chain r
           = Some (PdfRagApp.MkChain
                     (PdfRagApp.Llm "http://localhost:11434" "mistral")
                     store 3)
        /\ PdfRagApp.embeddings r
           = PdfRagApp.Embeddings "http://localhost:11434" "nomic-embed-text".
Proof.
  eexists _, _, _. split; [vm_compute; reflexivity|].
  eapply (PdfRagAppMore.initialize_system_ready
            "data" "vector_store" "http://localhost:11434"
            "nomic-embed-text" "mistral" mixed_world).
  vm_compute. reflexivity.
Defined.

Lemma main_without_documents_witness :
  fst (PdfRagAppMain.main "app" ∅ typed_keys sample_world) = Ok None
  /\ last (PdfRagApp.w_stdout
             (snd (PdfRagAppMain.main "app" ∅ typed_keys sample_world)))
     = Some "Failed to initialize RAG System. Please check Ollama is running."
  /\ exists l,
      PdfRagApp.w_calls
        (snd (PdfRagAppMain.main "app" ∅ typed_keys sample_world))
      = PdfRagApp.w_calls sample_world ++ l
      /\ forallb PdfRagAppMain.loader_call l = true.
Proof.
  apply (PdfRagAppMore.main_without_documents
           (Splitting:=sample_splitter)
           "app" ∅ typed_keys sample_world (SplitterCfg 1000 200 None));
    reflexivity.
Defined.

Lemma batch_qa_all_answered_witness :
  exists answers,
    fst (PdfRagAppMain.batch_qa
           (Some (PdfRagApp.cli_self ready_system))
           ["What is the capital of France?"; "What is it known for?"]
           (PdfRagApp.cli_world ready_system))
    = Ok (Some answers)
    /\ PdfRagApp.ans_question <$> answers
       = ["What is the capital of France?"; "What is it known for?"]
    /\ PdfRagApp.w_calls
         (snd (PdfRagAppMain.batch_qa
                 (Some (PdfRagApp.cli_self ready_system))
                 ["What is the capital of France?"; "What is it known for?"]
                 (PdfRagApp.cli_world ready_system)))
       = PdfRagApp.w_calls (PdfRagApp.cli_world ready_system)
         ++ (PdfRagApp.CallChain
               <$> ["What is the capital of France?";
                    "What is it known for?"]).
Proof.
  eapply (PdfRagAppMore.batch_qa_all_answered
            (PdfRagApp.cli_self ready_system));
    reflexivity.
Defined.

Lemma session_asks_each_question_witness :
  fst (PdfRagAppMain.session_loop (PdfRagApp.cli_self ready_system)
         typed_keys (PdfRagApp.cli_world ready_system))
  = Ok PdfRagAppMain.Exited
  /\ PdfRagApp.w_calls
       (snd (PdfRagAppMain.session_loop (PdfRagApp.cli_self ready_system)
               typed_keys (PdfRagApp.cli_world ready_system)))
     = PdfRagApp.w_calls (PdfRagApp.cli_world ready_system)
       ++ [PdfRagApp.CallChain "What is the capital of France?"].
Proof.
  refine (PdfRagAppMore.session_asks_each_question
            (PdfRagApp.cli_self ready_system) _ typed_keys
            (PdfRagApp.cli_world ready_system) eq_refl _).
  intros question. reflexivity.
Defined.

Lemma session_loop_contains_errors_witness :
  fst (PdfRagAppMain.session_loop (PdfRagApp.cli_self fresh_system)
         typed_keys (PdfRagApp.cli_world fresh_system))
  <> Raised (Exn ValueError "QA chain not setup. Call setup_qa_chain first.").
Proof.
  apply (PdfRagAppMore.session_loop_contains_errors
           (PdfRagApp.cli_self fresh_system) typed_keys
           (PdfRagApp.cli_world fresh_system)).
  left. reflexivity.
Defined.

Lemma session_without_chain_witness :
  fst (PdfRagAppMain.session_loop (PdfRagApp.cli_self fresh_system)
         typed_keys (PdfRagApp.cli_world fresh_system))
  = Ok PdfRagAppMain.Exited
  /\ PdfRagApp.w_calls
       (snd (PdfRagAppMain.session_loop (PdfRagApp.cli_self fresh_system)
               typed_keys (PdfRagApp.cli_world fresh_system)))
     = PdfRagApp.w_calls (PdfRagApp.cli_world fresh_system).
Proof.
  exact (PdfRagAppMore.session_without_chain
           (PdfRagApp.cli_self fresh_system) typed_keys
           (PdfRagApp.cli_world fresh_system) eq_refl).
Defined.

Lemma get_config_after_load_config_witness :
  let loaded :=
    PdfRag.load_config (PdfRag.MkConfigLoader "configs" ∅)
      "model_config.yaml" (web_world [] PdfRag.initial_session) in
  exists config self',
    fst loaded = Ok (config, self')
    /\ PdfRag.get_config self' "model_config.yaml" sparse_world
       = (Ok (config, self'), sparse_world)
    /\ forall other,
        other <> "model_config.yaml" ->
        PdfRag.configs self' !! other = (∅ : gmap string PdfRag.yaml) !! other.
Proof.
  intros loaded. eexists _, _. split; [reflexivity|].
  eapply (PdfRagMore.get_config_after_load_config
            (PdfRag.MkConfigLoader "configs" ∅) _ "model_config.yaml"
            (web_world [] PdfRag.initial_session) _ sparse_world).
  reflexivity.
Defined.

Lemma initialize_components_keeps_components_witness :
  let w := web_world ["Paris is the capital of France."] (ready_session true) in
  fst (PdfRag.initialize_components w) = Ok true
  /\ PdfRag.w_session (snd (PdfRag.initialize_components w)) = PdfRag.w_session w
  /\ PdfRag.w_calls (snd (PdfRag.initialize_components w)) = PdfRag.w_calls w
  /\ PdfRag.w_db (snd (PdfRag.initialize_components w)) = PdfRag.w_db w
  /\ PdfRag.w_ui (snd (PdfRag.initialize_components w)) = PdfRag.w_ui w.
Proof.
  intros w.
  apply (PdfRagMore.initialize_components_keeps_components
           w model_config rag_config); reflexivity.
Defined.

Lemma initialize_components_missing_key_witness :
  fst (PdfRag.initialize_components sparse_world) = Ok false
  /\ PdfRag.w_ui (snd (PdfRag.initialize_components sparse_world))
     = PdfRag.w_ui sparse_world
       ++ [PdfRag.UiError "Error initializing components: 'embeddings'"]
  /\ PdfRag.w_session (snd (PdfRag.initialize_components sparse_world))
     = PdfRag.w_session sparse_world
  /\ PdfRag.w_calls (snd (PdfRag.initialize_components sparse_world))
     = PdfRag.w_calls sparse_world.
Proof.
  apply (PdfRagMore.initialize_components_missing_key
           sparse_world {[ "unknown_option" := PdfRag.YInt 1 ]} rag_config);
    reflexivity.
Defined.

Lemma no_exception_escapes_witness :
  let w := web_world [] PdfRag.initial_session in
  let e := Exn KeyError "'embeddings'" in
  fst (PdfRag.initialize_components w) <> Raised e
  /\ fst (PdfRag.process_pdf (PdfRag.MkUpload "paris.pdf" "Paris.") w)
     <> Raised e
  /\ fst (PdfRag.answer_question "Where is Paris?" w) <> Raised e.
Proof.
  intros w e.
  apply (PdfRagMore.no_exception_escapes
           (PdfRag.MkUpload "paris.pdf" "Paris.") "Where is Paris?" w e).
  reflexivity.
Defined.

Lemma content_empty_retrieval_raises_witness :
  let w := web_world ["Paris is the capital of France."] (ready_session true) in
  let ws := ask "What is the tallest mountain?" in
  fst (PdfRag.content ws w)
  = Raised (Exn ValueError "too many values to unpack (expected 2)")
  /\ PdfRag.w_ui (snd (PdfRag.content ws w))
     = PdfRag.w_ui w
       ++ [PdfRag.UiSuccess "✅ Documents loaded! Ask questions below."]
  /\ PdfRag.w_calls (snd (PdfRag.content ws w))
     = PdfRag.w_calls w ++ [PdfRag.CallRetrieve (PdfRag.question_input ws)].
Proof.
  intros w ws.
  apply (PdfRagMore.content_empty_retrieval_raises ws w tt);
    [reflexivity | reflexivity | discriminate | reflexivity | reflexivity].
Defined.

Lemma main_keeps_unloaded_witness :
  PdfRag.unloaded
    (snd (PdfRag.main
            (PdfRag.MkWidgets (Some (PdfRag.MkUpload "paper.pdf" "%PDF-1.4"))
                              true false "What is this about?" true)
            sparse_world)).
Proof.
  apply (PdfRagMore.main_keeps_unloaded
           (PdfRag.MkWidgets (Some (PdfRag.MkUpload "paper.pdf" "%PDF-1.4"))
                             true false "What is this about?" true)
           sparse_world); reflexivity.
Defined.

Lemma stats_section_clears_witness :
  let w := web_world ["Paris is the capital of France."] (ready_session true) in
  let ws := PdfRag.MkWidgets None false true "" false in
  fst (PdfRag.stats_section ws w) = Raised (Exn RerunException "")
  /\ PdfRag.w_db (snd (PdfRag.stats_section ws w)) = []
  /\ PdfRag.documents_loaded
       (PdfRag.w_session (snd (PdfRag.stats_section ws w))) = false
  /\ PdfRag.chat_history
       (PdfRag.w_session (snd (PdfRag.stats_section ws w))) = []
  /\ fst (PdfRag.content (ask "Where is Paris?")
            (snd (PdfRag.stats_section ws w))) = Ok tt
  /\ last (PdfRag.w_ui
             (snd (PdfRag.content (ask "Where is Paris?")
                     (snd (PdfRag.stats_section ws w)))))
     = Some (PdfRag.UiInfo PdfRag.upload_prompt).
Proof.
  intros w ws.
  apply (PdfRagMore.stats_section_clears ws (ask "Where is Paris?") w tt 1 []);
    [reflexivity | reflexivity | lia | reflexivity | reflexivity].
Defined.

Lemma process_pdf_true_witness :
  let w := web_world [] (ready_session false) in
  let uploaded := PdfRag.MkUpload "paris.pdf" "Paris is the capital of France." in
  PdfRag.documents_loaded
    (PdfRag.w_session (snd (PdfRag.process_pdf uploaded w))) = true
  /\ exists chunks,
      last (PdfRag.w_calls (snd (PdfRag.process_pdf uploaded w)))
      = Some (PdfRag.CallAddDocuments chunks)
      /\ last (PdfRag.w_ui (snd (PdfRag.process_pdf uploaded w)))
         = Some (PdfRag.UiSuccess ("✅ Stored " +:+ pretty (length chunks)
                                   +:+ " chunks in vector database")).
Proof.
  intros w uploaded.
  apply (PdfRagMore.process_pdf_true uploaded w).
  vm_compute. reflexivity.
Defined.

Lemma create_documents_numbered_witness :
  exists documents,
    fst (PdfRagText.create_documents sample_processor
           ["Paris is the capital of France."; "It is known for the Eiffel Tower."]
           (Some [{[ "source" := PdfRag.YStr "paris.pdf" ]}])
           (web_world [] PdfRag.initial_session))
    = Ok documents
    /\ PdfRagText.doc_text <$> documents
       = flat_map (PdfRagText.chunks_of_text sample_processor)
           ["Paris is the capital of France.";
            "It is known for the Eiffel Tower."]
    /\ Forall PdfRagText.numbered documents.
Proof.
  apply (PdfRagMore.create_documents_numbered sample_processor
           ["Paris is the capital of France.";
            "It is known for the Eiffel Tower."]
           (Some [{[ "source" := PdfRag.YStr "paris.pdf" ]}])
           (web_world [] PdfRag.initial_session)).
  reflexivity.
Defined.

Lemma clean_text_normalises_witness :
  let text := list_ascii_of_string "  Paris   is the  capital " in
  let clean := PdfRagText.clean_text ascii_isspace Ascii.Space Ascii.zero in
  clean text
  = PdfRagText.join_space Ascii.Space
      (PdfRagText.split_whitespace ascii_isspace text)
  /\ PdfRagText.split_whitespace ascii_isspace (clean text)
     = PdfRagText.split_whitespace ascii_isspace text
  /\ clean (clean text) = clean text.
Proof.
  intros text clean.
  apply (PdfRagMore.clean_text_normalises ascii_isspace Ascii.Space Ascii.zero
           eq_refl ltac:(discriminate) text).
  repeat constructor; discriminate.
Defined.

End MoreRuns.
